(** * HIGGS_train: a shallow embedding of the Keras training notebook

    The notebook [keras/HIGGS_train.ipynb] is a linear script: it fetches the
    HIGGS dataset if it is missing, reads features and targets, builds a
    shallow and a deep dense network, compiles them, splits the data, fits a
    [StandardScaler] on the training part, pickles it, and trains and saves
    both networks.

    The code cells are embedded as computations in a state-and-exception
    monad over the file system, the heap of Keras model objects and the
    trace of library calls.  Library routines that the notebook only calls
    (scikit-learn, Keras, h5py, the shell) are modelled at the level their
    documentation fixes; what it does not fix (the shuffling permutation of
    the seeded generator, the effect of the [wget] command, failures of the
    environment) is a parameter of the development.

    Numbers are idealised: array entries are real numbers, so rounding of
    the binary floating-point arithmetic is not part of the model. *)

From Stdlib Require Import Reals Lra Lia ZArith QArith Qround List String Permutation.
From stdpp Require Import gmap strings list.

Open Scope string_scope.

(** ** Python exceptions and results *)

Inductive exn :=
| IOError (msg : string)
| OSError (msg : string)
| KeyError (key : string)
| IndexError (msg : string)
| ValueError (msg : string)
| RuntimeError (msg : string)
| NotFittedError
| MemoryError.

Inductive result (A : Type) :=
| Ok (a : A)
| Raise (e : exn).
Arguments Ok {A} a.
Arguments Raise {A} e.

(** ** numpy arrays

    The notebook handles one- and two-dimensional arrays only.  A
    two-dimensional array carries its second dimension, which an array
    without rows still has ([inputs.shape[1]]). *)

Inductive ndarray :=
| Arr1 (v : list R)
| Arr2 (n_cols : nat) (rows : list (list R)).

Definition rectangular (a : ndarray) : Prop :=
  match a with
  | Arr1 _ => True
  | Arr2 d rows => Forall (fun r => length r = d) rows
  end.

(** [a.shape[0]] *)
Definition shape0 (a : ndarray) : nat :=
  match a with
  | Arr1 v => length v
  | Arr2 _ rows => length rows
  end.

(** [a.shape[1]]; a one-dimensional shape tuple has no index 1. *)
Definition shape1 (a : ndarray) : result nat :=
  match a with
  | Arr1 _ => Raise (IndexError "tuple index out of range")
  | Arr2 d _ => Ok d
  end.

(** ** Column statistics *)

Module Stats.
Local Open Scope R_scope.

Definition Rsum (l : list R) : R := fold_right Rplus 0 l.

Definition mean (l : list R) : R := Rsum l / INR (length l).

(** Population variance (numpy's default, [ddof = 0]). *)
Definition variance (l : list R) : R :=
  mean (map (fun x => (x - mean l) * (x - mean l)) l).

Definition column (j : nat) (rows : list (list R)) : list R :=
  map (fun r => nth j r 0) rows.

End Stats.

(** ** sklearn.preprocessing.StandardScaler

    [StandardScaler()] with its defaults ([with_mean = True],
    [with_std = True], [copy = True]).  [fit] stores the per-column mean,
    variance and scale; the scale is the square root of the variance, except
    that a zero scale is replaced by one, so that a constant column is left
    centred instead of divided by zero.  [fit] validates its input: it must
    be two-dimensional, with at least one sample and at least one
    feature. *)

Module StandardScaler.
Import Stats.
Local Open Scope R_scope.

Record params := {
  mean_ : list R;
  var_ : list R;
  scale_ : list R;
  n_samples_seen_ : nat
}.

(** The scaler object: unfitted until [fit] has run. *)
Definition t := option params.

Definition new : t := None.

Definition handle_zeros_in_scale (s : R) : R :=
  if Req_dec_T s 0 then 1 else s.

Definition fit_rows (d : nat) (rows : list (list R)) : params :=
  let cols := map (fun j => column j rows) (seq 0 d) in
  {| mean_ := map mean cols;
     var_ := map variance cols;
     scale_ := map (fun c => handle_zeros_in_scale (sqrt (variance c))) cols;
     n_samples_seen_ := length rows |}.

Definition fit (self : t) (X : ndarray) : result t :=
  match X with
  | Arr1 _ => Raise (ValueError "Expected 2D array, got 1D array instead")
  | Arr2 d rows =>
      match rows with
      | [] => Raise (ValueError "Found array with 0 sample(s)")
      | _ :: _ =>
          if Nat.eqb d 0
          then Raise (ValueError "Found array with 0 feature(s)")
          else Ok (Some (fit_rows d rows))
      end
  end.

(** [X -= mean_; X /= scale_] on one row. *)
Definition transform_row (p : params) (r : list R) : list R :=
  map (fun '(x, m, s) => (x - m) / s) (combine (combine r (mean_ p)) (scale_ p)).

(** [transform] on a fitted scaler.  (The library also refuses an array
    without rows; the notebook transforms only the training inputs on which
    [fit] has succeeded, which have rows.) *)
Definition transform (self : t) (X : ndarray) : result ndarray :=
  match self with
  | None => Raise NotFittedError
  | Some p =>
      match X with
      | Arr1 _ => Raise (ValueError "Expected 2D array, got 1D array instead")
      | Arr2 d rows =>
          if Nat.eqb d (length (mean_ p))
          then Ok (Arr2 d (map (transform_row p) rows))
          else Raise (ValueError "operands could not be broadcast together")
      end
  end.

End StandardScaler.

(** ** Keras: Sequential models of Dense layers

    Activations, initialisers, losses and optimisers are passed by name, as
    the notebook does.  Training itself is not modelled: a model remembers
    the arguments of every [fit] call it has completed.  The weights, which
    the initialisers draw at random and which differ from one training to
    the next, are left out: a model object here is the architecture, the
    compile arguments and the history of [fit] calls, and nothing is said
    about the weights a run leaves in a model or in its file. *)

Module Keras.

Record Dense := {
  units : nat;
  kernel_initializer : string;
  activation : string;
  input_dim : option nat
}.

Record compile_args := {
  loss : string;
  optimizer : string;
  metrics : list string
}.

Record fit_args := {
  x : ndarray;
  y : ndarray;
  batch_size : nat;
  epochs : nat;
  validation_split : Q
}.

Record Sequential := {
  layers : list Dense;
  compiled : option compile_args;
  history : list fit_args
}.

(** [Sequential()] *)
Definition empty : Sequential :=
  {| layers := []; compiled := None; history := [] |}.

(** [model.add(layer)] *)
Definition add (m : Sequential) (l : Dense) : Sequential :=
  {| layers := layers m ++ [l]; compiled := compiled m; history := history m |}.

(** [model.compile(loss=..., optimizer=..., metrics=...)] *)
Definition compile (m : Sequential) (c : compile_args) : Sequential :=
  {| layers := layers m; compiled := Some c; history := history m |}.

(** The input dimension of the network is the [input_dim] of its first
    layer. *)
Definition model_input_dim (m : Sequential) : option nat :=
  match layers m with
  | [] => None
  | l :: _ => input_dim l
  end.

(** Hidden layers are all layers but the last one. *)
Definition hidden_layers (m : Sequential) : list Dense := removelast (layers m).

Definition output_layer (m : Sequential) : option Dense := last (layers m).

(** The [Output Shape] and [Param #] columns of [model.summary()]: a dense
    layer with [n] inputs and [u] units has [n * u] weights and [u]
    biases. *)
Fixpoint summary_rows (n_in : nat) (ls : list Dense) : list (nat * Z) :=
  match ls with
  | [] => []
  | l :: ls' =>
      (units l, (Z.of_nat n_in * Z.of_nat (units l) + Z.of_nat (units l))%Z)
        :: summary_rows (units l) ls'
  end.

Definition total_params (n_in : nat) (ls : list Dense) : Z :=
  fold_right Z.add 0%Z (map snd (summary_rows n_in ls)).

(** The number of leading samples [fit] keeps for training when
    [validation_split] is set: [int(n * (1. - validation_split))]; the
    remaining rows at the end are the validation data. *)
Definition split_at (n : nat) (validation_split : Q) : nat :=
  Z.to_nat (Qfloor (inject_Z (Z.of_nat n) * (1 - validation_split))).

(** The number of columns of the targets: a one-dimensional array counts
    as one column. *)
Definition target_dim (y : ndarray) : nat :=
  match y with
  | Arr1 _ => 1
  | Arr2 k _ => k
  end.

(** Whether the targets have one column per unit of the output layer. *)
Definition target_fits (m : Sequential) (y : ndarray) : bool :=
  match output_layer m with
  | Some l => Nat.eqb (target_dim y) (units l)
  | None => false
  end.

(** [model.fit(x, y, batch_size=..., epochs=..., validation_split=...)]:
    the model must be compiled, [x] must be two-dimensional with as many
    columns as the network has inputs, [y] must have as many columns as the
    output layer has units, [x] and [y] must have the same number of
    samples, and the rows before [split_at] that are left for training must
    not be empty. *)
Definition fit (m : Sequential) (a : fit_args) : result Sequential :=
  match compiled m with
  | None => Raise (RuntimeError "You must compile a model before training/testing")
  | Some _ =>
      match x a, model_input_dim m with
      | Arr2 d _, Some d' =>
          if Nat.eqb d d' then
            if target_fits m (y a) then
              if Nat.eqb (shape0 (x a)) (shape0 (y a)) then
                if Nat.eqb (split_at (shape0 (x a)) (validation_split a)) 0 then
                  Raise (ValueError "Empty training data")
                else
                  Ok {| layers := layers m; compiled := compiled m;
                        history := history m ++ [a] |}
              else Raise (ValueError "Input arrays should have the same number of samples as target arrays")
            else Raise (ValueError "Error when checking target: unexpected shape")
          else Raise (ValueError "Error when checking input: unexpected shape")
      | _, _ => Raise (ValueError "Error when checking input: unexpected shape")
      end
  end.

End Keras.

(** ** sklearn.model_selection.train_test_split

    [train_test_split(X, y, test_size=0.90, random_state=1234, shuffle=True)]
    draws one permutation of the sample indices from a generator seeded with
    [random_state]; the first [n_test] indices select the test rows, the
    following [n_train] the training rows.  The permutation drawn for [n]
    samples is a parameter. *)

Module ModelSelection.

Definition test_size : Q := 0.90.

(** [n_test = ceil(test_size * n_samples)] *)
Definition n_test (n : nat) : nat :=
  Z.to_nat (Qceiling (test_size * inject_Z (Z.of_nat n))).

(** [n_train = n_samples - n_test] *)
Definition n_train (n : nat) : nat := n - n_test n.

(** [permutation[:n_test]] *)
Definition ind_test (perm : list nat) (n : nat) : list nat :=
  firstn (n_test n) perm.

(** [permutation[n_test:(n_test + n_train)]] *)
Definition ind_train (perm : list nat) (n : nat) : list nat :=
  firstn (n_train n) (skipn (n_test n) perm).

(** Indexing a list with a list of indices; an index out of range raises. *)
Fixpoint take_list {A} (l : list A) (idx : list nat) : result (list A) :=
  match idx with
  | [] => Ok []
  | i :: idx' =>
      match l !! i with
      | None => Raise (IndexError "index out of bounds")
      | Some a =>
          match take_list l idx' with
          | Ok r => Ok (a :: r)
          | Raise e => Raise e
          end
      end
  end.

(** [safe_indexing(a, indices)]: selection along the first axis. *)
Definition safe_indexing (a : ndarray) (idx : list nat) : result ndarray :=
  match a with
  | Arr1 v =>
      match take_list v idx with Ok r => Ok (Arr1 r) | Raise e => Raise e end
  | Arr2 d rows =>
      match take_list rows idx with Ok r => Ok (Arr2 d r) | Raise e => Raise e end
  end.

Record split := {
  X_train : ndarray;
  X_test : ndarray;
  y_train : ndarray;
  y_test : ndarray
}.

Definition train_test_split (permutation : nat -> list nat) (X Y : ndarray)
  : result split :=
  if Nat.eqb (shape0 X) (shape0 Y) then
    let n := shape0 X in
    let perm := permutation n in
    match safe_indexing X (ind_train perm n), safe_indexing X (ind_test perm n),
          safe_indexing Y (ind_train perm n), safe_indexing Y (ind_test perm n) with
    | Ok xtr, Ok xte, Ok ytr, Ok yte =>
        Ok {| X_train := xtr; X_test := xte; y_train := ytr; y_test := yte |}
    | Raise e, _, _, _ => Raise e
    | _, Raise e, _, _ => Raise e
    | _, _, Raise e, _ => Raise e
    | _, _, _, Raise e => Raise e
    end
  else Raise (ValueError "Found input variables with inconsistent numbers of samples").

End ModelSelection.

(** ** The interpreter state

    Files are HDF5 containers of named datasets, Keras models saved by
    [model.save], pickled scalers, or anything else.  Keras models are
    objects on a heap: the notebook's loops mutate them through a second
    name. *)

Inductive file :=
| HDF5 (datasets : gmap string ndarray)
| KerasH5 (model : Keras.Sequential)
| Pickle (obj : StandardScaler.t)
| Other (content : string).

Definition loc := nat.

(** The library calls of the notebook, as they appear in its trace. *)
Inductive call :=
| np_random_seed (seed : nat)
| os_path_exists (path : string)
| subprocess_call (cmd : string)
| h5py_File (path : string)
| h5py_getitem (key : string)
| Sequential_new
| Sequential_add (m : loc) (l : Keras.Dense)
| Sequential_summary (m : loc)
| Sequential_compile (m : loc) (c : Keras.compile_args)
| sklearn_train_test_split
| StandardScaler_new
| StandardScaler_fit
| StandardScaler_transform
| open_wb (path : string)
| pickle_dump (path : string)
| Sequential_fit (m : loc) (batch_size epochs : nat) (validation_split : Q)
| Sequential_save (m : loc) (path : string).

Record state := {
  fs : gmap string file;
  heap : list Keras.Sequential;
  trace : list call
}.

Definition initial_state (files : gmap string file) : state :=
  {| fs := files; heap := []; trace := [] |}.

(** What the notebook does not determine: the permutation the seeded
    generator draws, what a shell command does to the file system and the
    status it exits with, and whether a library call fails for a reason of
    its own (decided from the calls made so far, the failing one last). *)
Record env := {
  permutation : nat -> list nat;
  shell : string -> gmap string file -> Z * gmap string file;
  fault : list call -> option exn
}.

(** ** The state-and-exception monad *)

Definition M (A : Type) : Type := state -> state * result A.

Definition ret {A} (a : A) : M A := fun s => (s, Ok a).

Definition bind {A B} (m : M A) (f : A -> M B) : M B :=
  fun s =>
    match m s with
    | (s', Ok a) => f a s'
    | (s', Raise e) => (s', Raise e)
    end.

Definition raise {A} (e : exn) : M A := fun s => (s, Raise e).

Definition lift {A} (r : result A) : M A := fun s => (s, r).

Definition get_fs : M (gmap string file) := fun s => (s, Ok (fs s)).

Definition put_fs (files : gmap string file) : M unit :=
  fun s => ({| fs := files; heap := heap s; trace := trace s |}, Ok tt).

Declare Scope monad_scope.
Delimit Scope monad_scope with monad.
Notation "x <- m ;; k" := (bind m (fun x => k))
  (at level 100, m at next level, right associativity) : monad_scope.
Notation "m ;; k" := (bind m (fun _ => k))
  (at level 100, right associativity) : monad_scope.
Open Scope monad_scope.

(** A library call is logged, then fails if the environment says so, and
    otherwise does its work.  A call that fails is taken to fail on entry:
    what a write that breaks off midway leaves in the file it was writing
    is not modelled. *)
Definition lib {A} (E : env) (c : call) (body : M A) : M A :=
  fun s =>
    let s' := {| fs := fs s; heap := heap s; trace := trace s ++ [c] |} in
    match fault E (trace s') with
    | Some e => (s', Raise e)
    | None => body s'
    end.

(** [for a in l: body] *)
Fixpoint for_each {A} (l : list A) (body : A -> M unit) : M unit :=
  match l with
  | [] => ret tt
  | a :: l' => body a;; for_each l' body
  end.

(** Reading and updating a model object through a reference. *)
Definition deref (m : loc) : M Keras.Sequential :=
  fun s =>
    match heap s !! m with
    | Some o => (s, Ok o)
    | None => (s, Raise (RuntimeError "invalid reference"))
    end.

Definition assign (m : loc) (o : Keras.Sequential) : M unit :=
  fun s => ({| fs := fs s; heap := <[m := o]> (heap s); trace := trace s |}, Ok tt).

Definition alloc (o : Keras.Sequential) : M loc :=
  fun s => ({| fs := fs s; heap := heap s ++ [o]; trace := trace s |},
            Ok (length (heap s))).

(** ** The library calls *)

Section Library.
Variable E : env.

Definition np_seed (seed : nat) : M unit :=
  lib E (np_random_seed seed) (ret tt).

(** [os.path.exists(path)] *)
Definition path_exists (path : string) : M bool :=
  lib E (os_path_exists path)
    (files <- get_fs;;
     ret (match files !! path with Some _ => true | None => false end)).

(** [subprocess.call(cmd, shell=True)]: returns the exit status. *)
Definition subprocess_call_shell (cmd : string) : M Z :=
  lib E (subprocess_call cmd)
    (files <- get_fs;;
     let '(status, files') := shell E cmd files in
     put_fs files';;
     ret status).

(** [h5py.File(path)] with the default mode of h5py 2 (read and write,
    create if missing): an existing HDF5 file is opened, a missing one is
    created empty, anything else is refused.  A model file written by Keras
    is an HDF5 file without datasets of its own. *)
Definition h5py_open (path : string) : M (gmap string ndarray) :=
  lib E (h5py_File path)
    (files <- get_fs;;
     match files !! path with
     | Some (HDF5 datasets) => ret datasets
     | Some (KerasH5 _) => ret ∅
     | Some (Pickle _) | Some (Other _) =>
         raise (IOError "Unable to open file (file signature not found)")
     | None => put_fs (<[path := HDF5 ∅]> files);; ret ∅
     end).

(** [np.array(file_[key])] *)
Definition np_array_of (file_ : gmap string ndarray) (key : string) : M ndarray :=
  lib E (h5py_getitem key)
    (match file_ !! key with
     | Some a => ret a
     | None => raise (KeyError key)
     end).

Definition Sequential : M loc :=
  lib E Sequential_new (alloc Keras.empty).

Definition model_add (m : loc) (l : Keras.Dense) : M unit :=
  lib E (Sequential_add m l)
    (o <- deref m;; assign m (Keras.add o l)).

Definition model_summary (m : loc) : M unit :=
  lib E (Sequential_summary m) (o <- deref m;; ret tt).

Definition model_compile (m : loc) (c : Keras.compile_args) : M unit :=
  lib E (Sequential_compile m c)
    (o <- deref m;; assign m (Keras.compile o c)).

Definition train_test_split (X Y : ndarray) : M ModelSelection.split :=
  lib E sklearn_train_test_split
    (lift (ModelSelection.train_test_split (permutation E) X Y)).

Definition StandardScaler : M StandardScaler.t :=
  lib E StandardScaler_new (ret StandardScaler.new).

Definition scaler_fit (self : StandardScaler.t) (X : ndarray) : M StandardScaler.t :=
  lib E StandardScaler_fit (lift (StandardScaler.fit self X)).

Definition scaler_transform (self : StandardScaler.t) (X : ndarray) : M ndarray :=
  lib E StandardScaler_transform (lift (StandardScaler.transform self X)).

(** [open(path, "wb")]: the file is created or truncated. *)
Definition open_for_writing (path : string) : M string :=
  lib E (open_wb path)
    (files <- get_fs;; put_fs (<[path := Other EmptyString]> files);; ret path).

(** [pickle.dump(obj, f)] *)
Definition pickle_dump_to (obj : StandardScaler.t) (f : string) : M unit :=
  lib E (pickle_dump f)
    (files <- get_fs;; put_fs (<[f := Pickle obj]> files)).

Definition model_fit (m : loc) (a : Keras.fit_args) : M unit :=
  lib E (Sequential_fit m (Keras.batch_size a) (Keras.epochs a) (Keras.validation_split a))
    (o <- deref m;;
     o' <- lift (Keras.fit o a);;
     assign m o').

Definition model_save (m : loc) (path : string) : M unit :=
  lib E (Sequential_save m path)
    (o <- deref m;;
     files <- get_fs;;
     put_fs (<[path := KerasH5 o]> files)).

End Library.

(** ** The notebook, cell by cell *)

Section Notebook.
Variable E : env.

Definition Dense (units : nat) (kernel_initializer activation : string)
    (input_dim : option nat) : Keras.Dense :=
  {| Keras.units := units; Keras.kernel_initializer := kernel_initializer;
     Keras.activation := activation; Keras.input_dim := input_dim |}.

Definition wget_cmd : string :=
  "wget http://mlphysics.ics.uci.edu/data/higgs/HIGGS.h5".

(** In [1]: the imports; the only call with an effect on later cells seeds
    numpy's global generator. *)
Definition cell1 : M unit :=
  np_seed E 1234.

(** In [2] *)
Definition cell2 : M unit :=
  found <- path_exists E "HIGGS.h5";;
  if negb found
  then subprocess_call_shell E wget_cmd;; ret tt
  else ret tt.

(** In [3] *)
Definition cell3 : M (ndarray * ndarray) :=
  file_ <- h5py_open E "HIGGS.h5";;
  inputs <- np_array_of E file_ "features";;
  targets <- np_array_of E file_ "targets";;
  ret (inputs, targets).

(** In [4] *)
Definition cell4 (inputs : ndarray) : M loc :=
  model_shallow <- Sequential E;;
  input_dim <- lift (shape1 inputs);;
  model_add E model_shallow (Dense 1000 "glorot_normal" "tanh" (Some input_dim));;
  model_add E model_shallow (Dense 1 "glorot_uniform" "sigmoid" None);;
  model_summary E model_shallow;;
  ret model_shallow.

(** In [5] *)
Definition cell5 (inputs : ndarray) : M loc :=
  model_deep <- Sequential E;;
  input_dim <- lift (shape1 inputs);;
  model_add E model_deep (Dense 300 "glorot_normal" "relu" (Some input_dim));;
  model_add E model_deep (Dense 300 "glorot_normal" "relu" None);;
  model_add E model_deep (Dense 300 "glorot_normal" "relu" None);;
  model_add E model_deep (Dense 300 "glorot_normal" "relu" None);;
  model_add E model_deep (Dense 300 "glorot_normal" "relu" None);;
  model_add E model_deep (Dense 1 "glorot_uniform" "sigmoid" None);;
  model_summary E model_deep;;
  ret model_deep.

Definition compile_config : Keras.compile_args :=
  {| Keras.loss := "binary_crossentropy";
     Keras.optimizer := "nadam";
     Keras.metrics := ["accuracy"] |}.

(** In [6] *)
Definition cell6 (model_shallow model_deep : loc) : M unit :=
  for_each [model_shallow; model_deep] (fun model =>
    model_compile E model compile_config).

(** In [7] *)
Definition cell7 (inputs targets : ndarray) : M ModelSelection.split :=
  train_test_split E inputs targets.

(** In [8] *)
Definition cell8 (inputs_train : ndarray) : M StandardScaler.t :=
  preprocessing_input <- StandardScaler E;;
  preprocessing_input <- scaler_fit E preprocessing_input inputs_train;;
  f <- open_for_writing E "HIGGS_preprocessing.pickle";;
  pickle_dump_to E preprocessing_input f;;
  ret preprocessing_input.

(** In [9] *)
Definition cell9 (model_shallow model_deep : loc)
    (preprocessing_input : StandardScaler.t)
    (inputs_train targets_train : ndarray) : M unit :=
  for_each (combine [model_shallow; model_deep] ["HIGGS_shallow.h5"; "HIGGS_deep.h5"])
    (fun '(model, name) =>
       x <- scaler_transform E preprocessing_input inputs_train;;
       model_fit E model
         {| Keras.x := x; Keras.y := targets_train;
            Keras.batch_size := 100; Keras.epochs := 10;
            Keras.validation_split := 0.25 |};;
       model_save E model name).

(** The names the notebook has bound when it is done. *)
Record globals := {
  inputs : ndarray;
  targets : ndarray;
  model_shallow : loc;
  model_deep : loc;
  inputs_train : ndarray;
  inputs_test : ndarray;
  targets_train : ndarray;
  targets_test : ndarray;
  preprocessing_input : StandardScaler.t
}.

(** The cells in their order in the file. *)
Definition notebook : M globals :=
  cell1;;
  cell2;;
  data <- cell3;;
  let '(inputs, targets) := data in
  model_shallow <- cell4 inputs;;
  model_deep <- cell5 inputs;;
  cell6 model_shallow model_deep;;
  sp <- cell7 inputs targets;;
  preprocessing_input <- cell8 (ModelSelection.X_train sp);;
  cell9 model_shallow model_deep preprocessing_input
        (ModelSelection.X_train sp) (ModelSelection.y_train sp);;
  ret {| inputs := inputs; targets := targets;
         model_shallow := model_shallow; model_deep := model_deep;
         inputs_train := ModelSelection.X_train sp;
         inputs_test := ModelSelection.X_test sp;
         targets_train := ModelSelection.y_train sp;
         targets_test := ModelSelection.y_test sp;
         preprocessing_input := preprocessing_input |}.

(** Running the notebook in a fresh interpreter. *)
Definition run (files : gmap string file) : state * result globals :=
  notebook (initial_state files).

End Notebook.

(** The exit status of the interpreter: an unhandled exception ends it with
    status 1. *)
Definition exit_status {A} (r : result A) : Z :=
  match r with
  | Ok _ => 0
  | Raise _ => 1
  end.

(** ** Vocabulary of the statements *)

(** The samples of an array along its first axis. *)
Definition samples (a : ndarray) : list (list R) :=
  match a with
  | Arr1 v => map (fun x => [x]) v
  | Arr2 _ rows => rows
  end.

(** The calls of a complete run, in order.  [download] tells whether the
    dataset had to be fetched, [d] is the number of feature columns; the
    shallow model is the first object on the heap and the deep one the
    second. *)
Definition setup_calls (download : bool) : list call :=
  [np_random_seed 1234; os_path_exists "HIGGS.h5"]
  ++ (if download then [subprocess_call wget_cmd] else [])
  ++ [h5py_File "HIGGS.h5"; h5py_getitem "features"; h5py_getitem "targets"].

Definition shallow_layers (d : nat) : list Keras.Dense :=
  [Dense 1000 "glorot_normal" "tanh" (Some d);
   Dense 1 "glorot_uniform" "sigmoid" None].

Definition deep_layers (d : nat) : list Keras.Dense :=
  [Dense 300 "glorot_normal" "relu" (Some d);
   Dense 300 "glorot_normal" "relu" None;
   Dense 300 "glorot_normal" "relu" None;
   Dense 300 "glorot_normal" "relu" None;
   Dense 300 "glorot_normal" "relu" None;
   Dense 1 "glorot_uniform" "sigmoid" None].

Definition build_calls (m : loc) (ls : list Keras.Dense) : list call :=
  Sequential_new :: map (Sequential_add m) ls ++ [Sequential_summary m].

Definition train_calls (m : loc) (name : string) : list call :=
  [StandardScaler_transform; Sequential_fit m 100 10 0.25; Sequential_save m name].

Definition calls (download : bool) (d : nat) : list call :=
  setup_calls download
  ++ build_calls 0 (shallow_layers d)
  ++ build_calls 1 (deep_layers d)
  ++ [Sequential_compile 0 compile_config; Sequential_compile 1 compile_config]
  ++ [sklearn_train_test_split]
  ++ [StandardScaler_new; StandardScaler_fit;
      open_wb "HIGGS_preprocessing.pickle"; pickle_dump "HIGGS_preprocessing.pickle"]
  ++ train_calls 0 "HIGGS_shallow.h5"
  ++ train_calls 1 "HIGGS_deep.h5".

(** Whether the dataset is fetched depends on the files present at the
    start. *)
Definition downloads (files : gmap string file) : bool :=
  match files !! "HIGGS.h5" with
  | Some _ => false
  | None => true
  end.

(** The file system on which cell 3 and the later cells work. *)
Definition files_after_download (E : env) (files : gmap string file)
  : gmap string file :=
  if downloads files then snd (shell E wget_cmd files) else files.

(** The labelled samples of a dataset: each feature row next to the target
    of the same index. *)
Definition labelled (X Y : ndarray) : list (list R * list R) :=
  combine (samples X) (samples Y).

(** Every entry of the array is 0 or 1. *)
Definition binary (a : ndarray) : Prop :=
  Forall (Forall (fun v => v = 0%R \/ v = 1%R)) (samples a).

(** Classes of calls. *)
Definition is_load (c : call) : bool :=
  match c with h5py_getitem _ => true | _ => false end.

Definition is_construct (c : call) : bool :=
  match c with Sequential_new => true | _ => false end.

Definition is_split (c : call) : bool :=
  match c with sklearn_train_test_split => true | _ => false end.

Definition is_scaler_fit (c : call) : bool :=
  match c with StandardScaler_fit => true | _ => false end.

Definition is_download (c : call) : bool :=
  match c with subprocess_call _ => true | _ => false end.

Definition is_fit_of (m : loc) (c : call) : bool :=
  match c with Sequential_fit m' _ _ _ => Nat.eqb m m' | _ => false end.

Definition is_save_of (m : loc) (c : call) : bool :=
  match c with Sequential_save m' _ => Nat.eqb m m' | _ => false end.

Definition is_training (c : call) : bool :=
  match c with Sequential_fit _ _ _ _ => true | _ => false end.

(** The number of calls of class [p] in a trace. *)
Definition count (p : call -> bool) (t : list call) : nat :=
  length (List.filter p t).

(** Every call of class [p] in the trace is made before every call of
    class [q]. *)
Definition before (p q : call -> bool) (t : list call) : Prop :=
  forall i j a b,
    t !! i = Some a -> t !! j = Some b -> p a = true -> q b = true -> i < j.

(** The same as a test: once a [q] call is seen, no [p] call follows or
    coincides. *)
Fixpoint before_b (p q : call -> bool) (t : list call) : bool :=
  match t with
  | [] => true
  | c :: t' =>
      if q c then forallb (fun a => negb (p a)) (c :: t')
      else before_b p q t'
  end.

(** Every call of class [q] in the trace comes after some call of class
    [p]. *)
Definition preceded (p q : call -> bool) (t : list call) : Prop :=
  forall j b, t !! j = Some b -> q b = true ->
    exists i a, i < j /\ t !! i = Some a /\ p a = true.

(** The same as a test; [seen] tells whether a [p] call has been met. *)
Fixpoint preceded_b (p q : call -> bool) (seen : bool) (t : list call) : bool :=
  match t with
  | [] => true
  | c :: t' =>
      (if q c then seen else true) && preceded_b p q (seen || p c) t'
  end.

(** The model a complete run leaves on the heap for the given layers. *)
Definition trained (ls : list Keras.Dense) (x y : ndarray) : Keras.Sequential :=
  {| Keras.layers := ls;
     Keras.compiled := Some compile_config;
     Keras.history :=
       [{| Keras.x := x; Keras.y := y; Keras.batch_size := 100;
           Keras.epochs := 10; Keras.validation_split := 0.25 |}] |}.

(** What holds of the final state [st] and names [g] of a run that
    completes, with [d] feature columns and [x] the standardised training
    inputs. *)
Record completed (E : env) (files : gmap string file) (st : state) (g : globals)
    (d : nat) (x : ndarray) : Prop := {
  c_file : exists datasets,
      files_after_download E files !! "HIGGS.h5" = Some (HDF5 datasets)
      /\ datasets !! "features" = Some (inputs g)
      /\ datasets !! "targets" = Some (targets g);
  c_shape : shape1 (inputs g) = Ok d;
  c_models : model_shallow g = 0 /\ model_deep g = 1;
  c_split :
    ModelSelection.train_test_split (permutation E) (inputs g) (targets g) =
    Ok {| ModelSelection.X_train := inputs_train g;
          ModelSelection.X_test := inputs_test g;
          ModelSelection.y_train := targets_train g;
          ModelSelection.y_test := targets_test g |};
  c_scaler :
    StandardScaler.fit StandardScaler.new (inputs_train g) = Ok (preprocessing_input g);
  c_transform :
    StandardScaler.transform (preprocessing_input g) (inputs_train g) = Ok x;
  c_checked : exists rows', x = Arr2 d rows' /\ length rows' = shape0 (targets_train g);
  c_target : Keras.target_dim (targets_train g) = 1;
  c_trained : Keras.split_at (shape0 x) 0.25 <> 0;
  c_heap :
    heap st = [trained (shallow_layers d) x (targets_train g);
               trained (deep_layers d) x (targets_train g)];
  c_fs :
    fs st =
    <["HIGGS_deep.h5" := KerasH5 (trained (deep_layers d) x (targets_train g))]>
      (<["HIGGS_shallow.h5" := KerasH5 (trained (shallow_layers d) x (targets_train g))]>
         (<["HIGGS_preprocessing.pickle" := Pickle (preprocessing_input g)]>
            (files_after_download E files)));
  c_trace : trace st = calls (downloads files) d
}.

(** No library call fails for a reason outside the model. *)
Definition fault_free (E : env) : Prop := forall t, fault E t = None.

(** The generator draws permutations. *)
Definition shuffles (permutation : nat -> list nat) : Prop :=
  forall n, Permutation (permutation n) (seq 0 n).

(** A computation is [disciplined] when a failing call it reaches is its
    last one and the exception of that call is its result. *)
Definition disciplined {A} (E : env) (m : M A) : Prop :=
  forall s s' r, m s = (s', r) ->
    trace s `prefix_of` trace s'
    /\ forall t e, trace s `prefix_of` t -> t <> trace s -> t `prefix_of` trace s' ->
                   fault E t = Some e -> t = trace s' /\ r = Raise e.

(** A computation that makes no library call. *)
Definition silent {A} (m : M A) : Prop :=
  forall s s' r, m s = (s', r) -> trace s' = trace s.

(** Fitting and applying the scaler on [X] gives columns of mean 0 and
    variance 1. *)
Definition standardizes (X : ndarray) : Prop :=
  forall sc X' d,
    StandardScaler.fit StandardScaler.new X = Ok sc ->
    StandardScaler.transform sc X = Ok X' ->
    shape1 X = Ok d ->
    forall j, j < d ->
      Stats.mean (Stats.column j (samples X')) = 0%R
      /\ Stats.variance (Stats.column j (samples X')) = 1%R.

(** The models are constructed after the split and after the scaler is
    fitted. *)
Definition constructed_after_split_and_scaler (t : list call) : Prop :=
  before is_split is_construct t /\ before is_scaler_fit is_construct t.

(** ** Sample data *)

Module Sample.
Local Open Scope R_scope.

(** Twenty samples of two features: the sample number and its square. *)
Definition features : ndarray :=
  Arr2 2 (map (fun i => [INR i; INR (i * i)]) (seq 0 20)).

(** Labels alternate between 0 and 1. *)
Definition labels : ndarray :=
  Arr1 (map (fun i => INR (i mod 2)) (seq 0 20)).

Definition dataset : file :=
  HDF5 (<["features" := features]> (<["targets" := labels]> ∅)).

(** The same samples, except that the held-out rows are zeroed. *)
Definition features' : ndarray :=
  Arr2 2 (map (fun i => if Nat.ltb i 2 then [INR i; INR (i * i)] else [0; 0]) (seq 0 20)).

Definition dataset' : file :=
  HDF5 (<["features" := features']> (<["targets" := labels]> ∅)).

(** A dataset whose targets are not all 0 or 1. *)
Definition odd_labels : ndarray :=
  Arr1 (map (fun i => INR (i mod 3)) (seq 0 20)).

Definition odd_dataset : file :=
  HDF5 (<["features" := features]> (<["targets" := odd_labels]> ∅)).

(** An environment in which nothing fails, the generator reverses the
    order of the samples and [wget] stores the sample dataset. *)
Definition quiet : env :=
  {| permutation := fun n => rev (seq 0 n);
     shell := fun _ files => (0%Z, <["HIGGS.h5" := dataset]> files);
     fault := fun _ => None |}.

(** An environment in which training the deep model runs out of memory. *)
Definition failing : env :=
  {| permutation := fun n => rev (seq 0 n);
     shell := fun _ files => (0%Z, <["HIGGS.h5" := dataset]> files);
     fault := fun t =>
       match last t with
       | Some (Sequential_fit 1 _ _ _) => Some MemoryError
       | _ => None
       end |}.

(** An environment without network: [wget] fails and stores nothing. *)
Definition offline : env :=
  {| permutation := fun n => rev (seq 0 n);
     shell := fun _ files => (4%Z, files);
     fault := fun _ => None |}.

(** A training matrix with a constant second column. *)
Definition constant_column : ndarray := Arr2 2 [[0; 3]; [2; 3]].

(** File systems that hold one of the datasets already. *)
Definition present : gmap string file := {["HIGGS.h5" := dataset]}.

Definition present' : gmap string file := {["HIGGS.h5" := dataset']}.

Definition odd_present : gmap string file := {["HIGGS.h5" := odd_dataset]}.

End Sample.

Definition is_ok {A} (r : result A) : bool :=
  match r with Ok _ => true | Raise _ => false end.

(** ** Vocabulary and sample data for runs that fail *)

Definition is_transform (c : call) : bool :=
  match c with StandardScaler_transform => true | _ => false end.

Definition is_compile_of (m : loc) (c : call) : bool :=
  match c with Sequential_compile m' _ => Nat.eqb m m' | _ => false end.

Definition is_open (c : call) : bool :=
  match c with open_wb _ => true | _ => false end.

(** The run has read the dataset, split it into [sp] and fitted the scaler
    [sc] on the training inputs. *)
Record fitted_stage (E : env) (files : gmap string file)
    (sp : ModelSelection.split) (sc : StandardScaler.t) : Prop := {
  f_file : exists datasets X Y,
      files_after_download E files !! "HIGGS.h5" = Some (HDF5 datasets)
      /\ datasets !! "features" = Some X
      /\ datasets !! "targets" = Some Y
      /\ ModelSelection.train_test_split (permutation E) X Y = Ok sp;
  f_fit : StandardScaler.fit StandardScaler.new (ModelSelection.X_train sp) = Ok sc
}.

Module Edge.
Local Open Scope R_scope.

(** A dataset file without features. *)
Definition no_features : gmap string file :=
  {["HIGGS.h5" := HDF5 (<["targets" := Sample.labels]> ∅)]}.

(** A dataset file whose features are a flat vector. *)
Definition flat_features : gmap string file :=
  {["HIGGS.h5" := HDF5 (<["features" := Sample.labels]> (<["targets" := Sample.labels]> ∅))]}.

(** Twenty feature rows and nineteen targets. *)
Definition short_labels : ndarray :=
  Arr1 (map (fun i => INR (i mod 2)) (seq 0 19)).

Definition mismatched : gmap string file :=
  {["HIGGS.h5" := HDF5 (<["features" := Sample.features]> (<["targets" := short_labels]> ∅))]}.

(** Five samples only. *)
Definition few : gmap string file :=
  {["HIGGS.h5" :=
      HDF5 (<["features" := Arr2 1 (map (fun i => [INR i]) (seq 0 5))]>
              (<["targets" := Arr1 (map (fun i => INR (i mod 2)) (seq 0 5))]> ∅))]}.

(** A file of that name that is not HDF5. *)
Definition not_hdf5 : gmap string file :=
  {["HIGGS.h5" := Other "<html>404</html>"]}.

(** The sample dataset next to files of an earlier run and a file of the
    user. *)
Definition used : gmap string file :=
  <["HIGGS_preprocessing.pickle" := Pickle None]>
    (<["notes.txt" := Other "keep"]> Sample.present).

End Edge.

(** The models cells 4 to 6 leave on the heap: built and compiled, not
    trained. *)
Definition compiled_model (ls : list Keras.Dense) : Keras.Sequential :=
  {| Keras.layers := ls; Keras.compiled := Some compile_config; Keras.history := [] |}.

(** The environment [E], except that every shell command exits with status
    [k]. *)
Definition with_status (k : Z) (E : env) : env :=
  {| permutation := permutation E;
     shell := fun cmd files => (k, snd (shell E cmd files));
     fault := fault E |}.

(** * Properties of the column statistics *)

Module StatsFacts.
Import Stats.
Local Open Scope R_scope.

Lemma Rsum_app l1 l2 : Rsum (l1 ++ l2) = Rsum l1 + Rsum l2.
Proof.
  induction l1 as [|x l1 IH]; simpl.
  - lra.
  - rewrite IH. lra.
Qed.

Lemma Rsum_affine (m s : R) (l : list R) :
  Rsum (map (fun x => (x - m) / s) l) = (Rsum l - INR (length l) * m) / s.
Proof.
  induction l as [|x l IH].
  - simpl. unfold Rdiv. lra.
  - cbn [map Rsum fold_right length]. fold (Rsum (map (fun x => (x - m) / s) l)).
    fold (Rsum l). rewrite IH, S_INR. unfold Rdiv. lra.
Qed.

Lemma Rsum_scale (k : R) (f : R -> R) (l : list R) :
  Rsum (map (fun x => k * f x) l) = k * Rsum (map f l).
Proof.
  induction l as [|x l IH]; simpl.
  - lra.
  - fold (Rsum (map (fun x => k * f x) l)). fold (Rsum (map f l)).
    rewrite IH. lra.
Qed.

Lemma Rsum_ext (f g : R -> R) (l : list R) :
  (forall x, f x = g x) -> Rsum (map f l) = Rsum (map g l).
Proof.
  intros E. induction l as [|x l IH]; simpl; [reflexivity|].
  fold (Rsum (map f l)). fold (Rsum (map g l)). now rewrite IH, E.
Qed.

Lemma Rsum_squares_nonneg (f : R -> R) (l : list R) :
  0 <= Rsum (map (fun x => f x * f x) l).
Proof.
  induction l as [|x l IH]; simpl.
  - lra.
  - fold (Rsum (map (fun x => f x * f x) l)). nra.
Qed.

Lemma INR_length_pos {A} (l : list A) : l <> [] -> 0 < INR (length l).
Proof.
  destruct l as [|a l]; [congruence|]. intros _.
  apply lt_0_INR. simpl. lia.
Qed.

Lemma variance_nonneg (l : list R) : 0 <= variance l.
Proof.
  unfold variance, mean. rewrite length_map.
  destruct l as [|a l].
  - simpl. unfold Rdiv. rewrite Rinv_0. lra.
  - apply Rmult_le_pos.
    + apply (Rsum_squares_nonneg (fun x => x - Rsum (a :: l) / INR (length (a :: l)))).
    + left. apply Rinv_0_lt_compat, INR_length_pos. discriminate.
Qed.

(** Centring: the mean of the shifted and scaled column is zero. *)
Lemma mean_standardized (s : R) (l : list R) :
  l <> [] -> s <> 0 ->
  mean (map (fun x => (x - mean l) / s) l) = 0.
Proof.
  intros Hl Hs. unfold mean at 1. rewrite Rsum_affine, length_map.
  unfold mean. pose proof (INR_length_pos l Hl) as Hn.
  field. split; lra.
Qed.

(** Scaling: the variance of the shifted and scaled column is the variance
    of the column divided by the square of the scale. *)
Lemma variance_standardized (s : R) (l : list R) :
  l <> [] -> s <> 0 ->
  variance (map (fun x => (x - mean l) / s) l) = variance l / (s * s).
Proof.
  intros Hl Hs. unfold variance at 1.
  rewrite (mean_standardized s l Hl Hs).
  rewrite map_map. unfold mean at 1. rewrite length_map.
  rewrite (Rsum_ext _ (fun x => / (s * s) * ((x - mean l) * (x - mean l)))).
  2:{ intros x. field. exact Hs. }
  rewrite (Rsum_scale (/ (s * s)) (fun x => (x - mean l) * (x - mean l))).
  unfold variance, mean at 3. rewrite length_map.
  pose proof (INR_length_pos l Hl) as Hn.
  field. split; lra.
Qed.

End StatsFacts.

(** * The scaler *)

Module ScalerFacts.
Import Stats StandardScaler StatsFacts.
Local Open Scope R_scope.

Lemma handle_zeros_nonzero (s : R) : handle_zeros_in_scale s <> 0.
Proof.
  unfold handle_zeros_in_scale. destruct (Req_dec_T s 0); lra.
Qed.

Lemma column_length j (rows : list (list R)) : length (column j rows) = length rows.
Proof. apply length_map. Qed.

Lemma nth_params (f : list R -> R) d (rows : list (list R)) j :
  (j < d)%nat ->
  nth j (map f (map (fun j => column j rows) (seq 0 d))) 0 = f (column j rows).
Proof.
  intros Hj. rewrite map_map.
  rewrite (nth_indep _ 0 (f (column 0 rows))) by (rewrite length_map, length_seq; exact Hj).
  rewrite (map_nth (fun j => f (column j rows))), seq_nth by exact Hj.
  reflexivity.
Qed.

Lemma nth_transform_row d (rows : list (list R)) (r : list R) j :
  length r = d -> (j < d)%nat ->
  nth j (transform_row (fit_rows d rows) r) 0 =
  (nth j r 0 - mean (column j rows))
  / handle_zeros_in_scale (sqrt (variance (column j rows))).
Proof.
  intros Hr Hj. unfold transform_row, fit_rows. cbn [mean_ scale_].
  set (cols := map (fun j => column j rows) (seq 0 d)).
  assert (Hc : length cols = d) by (unfold cols; rewrite length_map; apply length_seq).
  set (g := fun '(x, m, s) => (x - m) / s).
  rewrite (nth_indep _ 0 (g (0, 0, 0))).
  2:{ rewrite length_map, !length_combine, !length_map. lia. }
  rewrite (map_nth g).
  rewrite combine_nth by (rewrite length_combine, !length_map; lia).
  rewrite combine_nth by (rewrite length_map; lia).
  unfold g, cols.
  rewrite (nth_params mean d rows j Hj).
  rewrite (nth_params (fun c => handle_zeros_in_scale (sqrt (variance c))) d rows j Hj).
  reflexivity.
Qed.

(** A column of a transformed matrix is the column shifted by the mean and
    divided by the scale of the same column of the matrix the scaler was
    fitted on. *)
Lemma column_transform d (rows data : list (list R)) j :
  Forall (fun r => length r = d) data -> (j < d)%nat ->
  column j (map (transform_row (fit_rows d rows)) data) =
  map (fun x => (x - mean (column j rows))
                / handle_zeros_in_scale (sqrt (variance (column j rows))))
      (column j data).
Proof.
  intros Hrect Hj. unfold column at 1 4. rewrite !map_map.
  apply map_ext_in. intros r Hr.
  apply nth_transform_row; [|exact Hj].
  rewrite List.Forall_forall in Hrect. auto.
Qed.

Lemma standardized_column (c : list R) :
  c <> [] ->
  let s := handle_zeros_in_scale (sqrt (variance c)) in
  let c' := map (fun x => (x - mean c) / s) c in
  mean c' = 0
  /\ (variance c <> 0 -> s = sqrt (variance c) /\ variance c' = 1)
  /\ (variance c = 0 -> s = 1 /\ variance c' = 0).
Proof.
  intros Hc s c'. pose proof (handle_zeros_nonzero (sqrt (variance c))) as Hs.
  fold s in Hs. pose proof (variance_nonneg c) as Hv.
  split; [exact (mean_standardized s c Hc Hs)|].
  unfold c'. rewrite (variance_standardized s c Hc Hs). split.
  - intros Hne.
    assert (Hq : sqrt (variance c) <> 0).
    { intros H0. apply Hne. exact (sqrt_eq_0 _ Hv H0). }
    assert (Es : s = sqrt (variance c)).
    { unfold s, handle_zeros_in_scale.
      destruct (Req_dec_T (sqrt (variance c)) 0); [contradiction | reflexivity]. }
    split; [exact Es|]. rewrite Es, (sqrt_sqrt _ Hv). field. exact Hne.
  - intros H0. split.
    + unfold s, handle_zeros_in_scale. rewrite H0, sqrt_0.
      destruct (Req_dec_T 0 0); [reflexivity | contradiction].
    + rewrite H0. unfold Rdiv. lra.
Qed.

Lemma fit_inv X sc :
  fit new X = Ok sc ->
  exists d r rows, X = Arr2 d (r :: rows) /\ sc = Some (fit_rows d (r :: rows)).
Proof.
  destruct X as [v|d [|r rows]]; cbn; try discriminate.
  destruct (Nat.eqb d 0); intros [= <-]; eauto.
Qed.

Lemma fit_rows_length d rows : length (mean_ (fit_rows d rows)) = d.
Proof. cbn. rewrite !length_map. apply length_seq. Qed.

Lemma transform_fitted d rows data :
  transform (Some (fit_rows d rows)) (Arr2 d data) =
  Ok (Arr2 d (map (transform_row (fit_rows d rows)) data)).
Proof.
  cbn [transform]. rewrite fit_rows_length, Nat.eqb_refl. reflexivity.
Qed.

End ScalerFacts.

Section ScalerClaims.
Import Stats StandardScaler.

(** C1 (amended).  A scaler fitted on a rectangular training matrix
    transforms any matrix with the same number of columns column by column:
    it subtracts the column mean of the training inputs and divides by the
    column scale of the training inputs, which is their standard deviation,
    or 1 for a column of zero variance.  Every column of the transformed
    training inputs has mean 0; a column that is not constant has variance 1
    afterwards, a constant column has variance 0. *)
Theorem standardizer_centres_and_scales d rows sc :
  Forall (fun r => length r = d) rows ->
  fit new (Arr2 d rows) = Ok sc ->
  (forall data, Forall (fun r => length r = d) data ->
     exists data',
       transform sc (Arr2 d data) = Ok (Arr2 d data')
       /\ forall j, j < d ->
            column j data' =
            map (fun x => ((x - mean (column j rows))
                           / handle_zeros_in_scale (sqrt (variance (column j rows))))%R)
                (column j data))
  /\ exists rows',
       transform sc (Arr2 d rows) = Ok (Arr2 d rows')
       /\ forall j, j < d ->
            let c := column j rows in
            let s := handle_zeros_in_scale (sqrt (variance c)) in
            column j rows' = map (fun x => ((x - mean c) / s)%R) c
            /\ mean (column j rows') = 0%R
            /\ (variance c <> 0%R ->
                s = sqrt (variance c) /\ variance (column j rows') = 1%R)
            /\ (variance c = 0%R -> s = 1%R /\ variance (column j rows') = 0%R).
Proof.
  intros Hrect Hfit.
  destruct (ScalerFacts.fit_inv _ _ Hfit) as (d' & r & rows0 & [= <- ->] & ->).
  split.
  - intros data Hdata. eexists. split; [apply ScalerFacts.transform_fitted|].
    intros j Hj. exact (ScalerFacts.column_transform d (r :: rows0) data j Hdata Hj).
  - eexists. split; [apply ScalerFacts.transform_fitted|].
    intros j Hj c s.
    rewrite (ScalerFacts.column_transform d (r :: rows0) (r :: rows0) j Hrect Hj).
    fold c. fold s. split; [reflexivity|].
    apply ScalerFacts.standardized_column. discriminate.
Qed.

(** On the sample matrix the first column, 0 and 2, is centred and
    scaled to variance 1. *)
Lemma standardizer_centres_and_scales_witness :
  exists rows',
    transform (Some (fit_rows 2 [[0; 3]; [2; 3]]%R)) (Arr2 2 [[0; 3]; [2; 3]]%R)
    = Ok (Arr2 2 rows')
    /\ mean (column 0 rows') = 0%R
    /\ variance (column 0 rows') = 1%R.
Proof.
  destruct (standardizer_centres_and_scales 2 [[0; 3]; [2; 3]]%R
              (Some (fit_rows 2 [[0; 3]; [2; 3]]%R)))
    as (_ & rows' & Ht & Hcols).
  - repeat constructor.
  - reflexivity.
  - exists rows'. split; [exact Ht|].
    destruct (Hcols 0) as (_ & Hm & Hv & _); [lia|].
    split; [exact Hm|]. apply Hv.
    unfold variance, mean, column. cbn. lra.
Defined.

(** C1 as stated fails on a training matrix with a constant column: the
    transformed column has variance 0, not 1. *)
Lemma constant_column_not_standardized : ~ standardizes Sample.constant_column.
Proof.
  intros H. unfold standardizes, Sample.constant_column in H.
  specialize (H _ _ 2 eq_refl (ScalerFacts.transform_fitted 2 _ _) eq_refl 1).
  destruct H as [_ Hvar]; [lia|].
  cbn [samples] in Hvar.
  rewrite ScalerFacts.column_transform in Hvar by (repeat constructor).
  destruct (ScalerFacts.standardized_column (column 1 [[0; 3]; [2; 3]]%R)) as (_ & _ & H0);
    [discriminate|].
  assert (Hv : variance (column 1 [[0; 3]; [2; 3]]%R) = 0%R).
  { unfold variance, mean, column. cbn. lra. }
  destruct (H0 Hv) as [_ Hz]. rewrite Hz in Hvar. lra.
Qed.

End ScalerClaims.

(** * Traces *)

Lemma forallb_prefix (p : call -> bool) (t1 t2 : list call) :
  t1 `prefix_of` t2 -> forallb p t2 = true -> forallb p t1 = true.
Proof.
  intros [k ->]. rewrite forallb_app. intros H.
  apply andb_true_iff in H. tauto.
Qed.

Lemma before_prefix p q (t1 t2 : list call) :
  t1 `prefix_of` t2 -> before p q t2 -> before p q t1.
Proof.
  intros [k ->] H i j a b Hi Hj. apply H.
  - apply lookup_app_l_Some, Hi.
  - apply lookup_app_l_Some, Hj.
Qed.

Lemma forallb_lookup (p : call -> bool) (t : list call) i a :
  forallb p t = true -> t !! i = Some a -> p a = true.
Proof.
  revert i. induction t as [|c t IH]; intros i H Hi; [discriminate|].
  cbn in H. apply andb_true_iff in H as [Hc Ht].
  destruct i as [|i]; cbn in Hi.
  - congruence.
  - eauto.
Qed.

Lemma before_b_sound p q (t : list call) :
  before_b p q t = true -> before p q t.
Proof.
  induction t as [|c t IH]; intros H i j a b Hi Hj Ha Hb.
  - discriminate.
  - cbn [before_b] in H. destruct (q c) eqn:Hq.
    + pose proof (forallb_lookup _ _ _ _ H Hi) as Hn.
      cbn beta in Hn. rewrite Ha in Hn. discriminate.
    + destruct j as [|j]; cbn in Hj.
      * congruence.
      * destruct i as [|i]; [lia|]. cbn in Hi.
        specialize (IH H i j a b Hi Hj Ha Hb). lia.
Qed.

Lemma prefix_same_or_longer (t1 t2 : list call) :
  t1 `prefix_of` t2 -> t2 = t1 \/ t2 <> t1.
Proof.
  intros [k ->]. destruct k as [|c k].
  - left. apply app_nil_r.
  - right. intros H. apply (f_equal length) in H.
    rewrite length_app in H. cbn in H. lia.
Qed.

Lemma prefix_snoc_between (t0 t : list call) (c : call) :
  t0 `prefix_of` t -> t <> t0 -> t `prefix_of` (t0 ++ [c])%list -> t = (t0 ++ [c])%list.
Proof.
  intros [k ->] Hne [k' Hk'].
  rewrite <- app_assoc in Hk'. apply app_inv_head in Hk'.
  destruct k as [|c' k]; [rewrite app_nil_r in Hne; congruence|].
  destruct k; [|destruct k'; discriminate].
  cbn in Hk'. destruct k'; [congruence | discriminate].
Qed.

(** * No error recovery: faults end the run *)

Lemma silent_disciplined {A} E (m : M A) : silent m -> disciplined E m.
Proof.
  intros Hm s s' r H. rewrite (Hm _ _ _ H). split; [reflexivity|].
  intros t e H1 Hne H2. exfalso. apply Hne.
  apply (anti_symm prefix); assumption.
Qed.

Lemma disciplined_bind {A B} E (m : M A) (f : A -> M B) :
  disciplined E m -> (forall a, disciplined E (f a)) -> disciplined E (bind m f).
Proof.
  intros Hm Hf s s' r H. unfold bind in H.
  destruct (m s) as [s1 [a|e1]] eqn:Hms.
  - destruct (Hm _ _ _ Hms) as [P1 Q1]. destruct (Hf a _ _ _ H) as [P2 Q2].
    split; [etrans; eassumption|].
    intros t e Ht Hne Ht' Hfault.
    destruct (prefix_weak_total _ _ _ Ht' P2) as [Hle|Hle].
    + destruct (Q1 t e Ht Hne Hle Hfault) as [_ ?]. discriminate.
    + destruct (prefix_same_or_longer _ _ Hle) as [->|Hne1].
      * destruct (Q1 _ e Ht Hne (reflexivity _) Hfault) as [_ ?]. discriminate.
      * apply Q2; assumption.
  - injection H as <- <-. destruct (Hm _ _ _ Hms) as [P1 Q1].
    split; [exact P1|]. intros t e Ht Hne Ht' Hfault.
    destruct (Q1 t e Ht Hne Ht' Hfault) as [-> [= ->]]. split; reflexivity.
Qed.

Lemma disciplined_lib {A} E c (body : M A) :
  disciplined E body -> disciplined E (lib E c body).
Proof.
  intros Hb s s' r H. unfold lib in H. cbn [trace] in H.
  destruct (fault E (trace s ++ [c])) as [e0|] eqn:Hf.
  - injection H as <- <-. cbn [trace]. split; [by apply prefix_app_r|].
    intros t e Ht Hne Ht' Hfault.
    rewrite (prefix_snoc_between _ _ _ Ht Hne Ht') in *.
    split; [reflexivity | congruence].
  - destruct (Hb _ _ _ H) as [P Q]. cbn [trace] in P, Q.
    split; [etrans; [|exact P]; by apply prefix_app_r|].
    intros t e Ht Hne Ht' Hfault.
    destruct (prefix_weak_total _ _ _ Ht' P) as [Hle|Hle].
    + rewrite (prefix_snoc_between _ _ _ Ht Hne Hle) in *. congruence.
    + destruct (prefix_same_or_longer _ _ Hle) as [->|Hne1]; [congruence|].
      apply Q; assumption.
Qed.

Lemma disciplined_ret {A} E (a : A) : disciplined E (ret a).
Proof. apply silent_disciplined. intros s s' r [= <- <-]. reflexivity. Qed.

Lemma disciplined_raise {A} E e : disciplined E (@raise A e).
Proof. apply silent_disciplined. intros s s' r [= <- <-]. reflexivity. Qed.

Lemma disciplined_lift {A} E (x : result A) : disciplined E (lift x).
Proof. apply silent_disciplined. intros s s' r [= <- <-]. reflexivity. Qed.

Lemma disciplined_get_fs E : disciplined E get_fs.
Proof. apply silent_disciplined. intros s s' r [= <- <-]. reflexivity. Qed.

Lemma disciplined_put_fs E files : disciplined E (put_fs files).
Proof. apply silent_disciplined. intros s s' r [= <- <-]. reflexivity. Qed.

Lemma disciplined_deref E m : disciplined E (deref m).
Proof.
  apply silent_disciplined. intros s s' r H. unfold deref in H.
  destruct (heap s !! m); injection H as <- <-; reflexivity.
Qed.

Lemma disciplined_assign E m o : disciplined E (assign m o).
Proof. apply silent_disciplined. intros s s' r [= <- <-]. reflexivity. Qed.

Lemma disciplined_alloc E o : disciplined E (alloc o).
Proof. apply silent_disciplined. intros s s' r [= <- <-]. reflexivity. Qed.

Lemma disciplined_for_each {A} E (l : list A) (body : A -> M unit) :
  (forall a, disciplined E (body a)) -> disciplined E (for_each l body).
Proof.
  intros Hb. induction l as [|a l IH]; cbn [for_each].
  - apply disciplined_ret.
  - apply disciplined_bind; [apply Hb | intros _; exact IH].
Qed.

Create HintDb discipline.
#[local] Hint Resolve disciplined_ret disciplined_raise disciplined_lift disciplined_get_fs
  disciplined_put_fs disciplined_deref disciplined_assign disciplined_alloc : discipline.

Ltac discipline :=
  repeat first
    [ apply disciplined_bind; [|intros ?]
    | apply disciplined_lib
    | apply disciplined_for_each; intros ?
    | solve [auto with discipline]
    | match goal with
      | |- disciplined _ (match ?x with _ => _ end) => destruct x
      end ].

Lemma disciplined_notebook E : disciplined E (notebook E).
Proof.
  unfold notebook, cell1, cell2, cell3, cell4, cell5, cell6, cell7, cell8, cell9,
    np_seed, path_exists, subprocess_call_shell, h5py_open, np_array_of, Sequential,
    model_add, model_summary, model_compile, train_test_split, StandardScaler,
    scaler_fit, scaler_transform, open_for_writing, pickle_dump_to, model_fit,
    model_save.
  discipline.
Qed.

(** * The split *)

Module SplitFacts.
Import ModelSelection.

Lemma n_test_formula (n : nat) :
  Z.of_nat (n_test n) = ((9 * Z.of_nat n + 9) / 10)%Z.
Proof.
  unfold n_test, test_size, Qceiling, Qfloor. cbn [Qmult Qopp Qnum Qden inject_Z].
  rewrite Z2Nat.id.
  - change (Z.pos (100 * 1)) with 100%Z.
    pose proof (Z.div_mod (- (90 * Z.of_nat n)) 100) as H1.
    pose proof (Z.mod_pos_bound (- (90 * Z.of_nat n)) 100) as H2.
    pose proof (Z.div_mod (9 * Z.of_nat n + 9) 10) as H3.
    pose proof (Z.mod_pos_bound (9 * Z.of_nat n + 9) 10) as H4.
    lia.
  - change (Z.pos (100 * 1)) with 100%Z.
    pose proof (Z.div_mod (- (90 * Z.of_nat n)) 100) as H1.
    pose proof (Z.mod_pos_bound (- (90 * Z.of_nat n)) 100) as H2.
    lia.
Qed.

Lemma n_test_le (n : nat) : n_test n <= n.
Proof.
  apply Nat2Z.inj_le. rewrite n_test_formula.
  pose proof (Z.div_mod (9 * Z.of_nat n + 9) 10) as H3.
  pose proof (Z.mod_pos_bound (9 * Z.of_nat n + 9) 10) as H4.
  lia.
Qed.

Lemma n_train_formula (n : nat) : n_train n = n / 10.
Proof.
  unfold n_train. apply Nat2Z.inj. rewrite Nat2Z.inj_sub by apply n_test_le.
  rewrite n_test_formula, Nat2Z.inj_div. change (Z.of_nat 10) with 10%Z.
  pose proof (Z.div_mod (9 * Z.of_nat n + 9) 10) as H3.
  pose proof (Z.mod_pos_bound (9 * Z.of_nat n + 9) 10) as H4.
  pose proof (Z.div_mod (Z.of_nat n) 10) as H5.
  pose proof (Z.mod_pos_bound (Z.of_nat n) 10) as H6.
  lia.
Qed.

Lemma take_list_ok {A} (l : list A) idx r :
  take_list l idx = Ok r -> Forall2 (fun i a => l !! i = Some a) idx r.
Proof.
  revert r. induction idx as [|i idx IH]; intros r H; cbn [take_list] in H.
  - injection H as <-. constructor.
  - destruct (l !! i) as [a|] eqn:Hi; [|discriminate].
    destruct (take_list l idx) as [r'|e]; [|discriminate].
    injection H as <-. constructor; auto.
Qed.

Lemma take_list_total {A} (l : list A) idx :
  Forall (fun i => i < length l) idx -> exists r, take_list l idx = Ok r.
Proof.
  induction 1 as [|i idx Hi _ [r IH]]; cbn [take_list].
  - eauto.
  - destruct (lookup_lt_is_Some_2 l i Hi) as [a ->]. rewrite IH. eauto.
Qed.

Lemma Forall2_permute {A B} (P : A -> B -> Prop) (l l' : list A) (k : list B) :
  Permutation l l' -> Forall2 P l k ->
  exists k', Permutation k k' /\ Forall2 P l' k'.
Proof.
  intros Hp. revert k. induction Hp as [|a l l' _ IH|a b l|l1 l2 l3 _ IH1 _ IH2]; intros k H.
  - inversion H; subst. exists []. split; constructor.
  - inversion H as [|? b ? k0 Hab H0]; subst.
    destruct (IH _ H0) as (k' & Hk & HF).
    exists (b :: k'). split; [by constructor | by constructor].
  - inversion H as [|? y1 ? k1 Hy1 H1]; subst.
    inversion H1 as [|? y2 ? k2 Hy2 H2]; subst.
    exists (y2 :: y1 :: k2). split; [apply perm_swap | repeat constructor; assumption].
  - destruct (IH1 _ H) as (k1 & Hk1 & HF1).
    destruct (IH2 _ HF1) as (k2 & Hk2 & HF2).
    exists k2. split; [etrans; eassumption | assumption].
Qed.

Lemma Forall2_lookup_seq {A} (l k : list A) :
  Forall2 (fun i a => l !! i = Some a) (seq 0 (length l)) k -> k = l.
Proof.
  intros H. apply list_eq. intros i.
  destruct (decide (i < length l)) as [Hi|Hi].
  - destruct (Forall2_lookup_l _ _ _ i i H) as (a & Ha & Hl).
    { apply lookup_seq. split; [reflexivity | exact Hi]. }
    congruence.
  - pose proof (Forall2_length _ _ _ H) as Hlen. rewrite length_seq in Hlen.
    rewrite !lookup_ge_None_2 by lia. reflexivity.
Qed.

(** Selecting with a permutation of all indices permutes the list. *)
Lemma select_all_permutes {A} (l k : list A) idx :
  Permutation idx (seq 0 (length l)) ->
  Forall2 (fun i a => l !! i = Some a) idx k -> Permutation k l.
Proof.
  intros Hp H. destruct (Forall2_permute _ _ _ _ Hp H) as (k' & Hk & HF).
  apply Forall2_lookup_seq in HF. by subst.
Qed.

Lemma safe_indexing_ok a idx a' :
  safe_indexing a idx = Ok a' ->
  Forall2 (fun i smp => samples a !! i = Some smp) idx (samples a')
  /\ shape0 a' = length idx
  /\ shape1 a' = shape1 a.
Proof.
  destruct a as [v|d rows]; cbn [safe_indexing];
    [destruct (take_list v idx) as [r|e] eqn:Hr | destruct (take_list rows idx) as [r|e] eqn:Hr];
    intros [= <-]; apply take_list_ok in Hr; cbn [samples shape0 shape1].
  - split; [|split; [|reflexivity]].
    + apply Forall2_fmap_r. eapply Forall2_impl; [exact Hr|].
      cbn. intros i x Hx. by rewrite list_lookup_fmap, Hx.
    + symmetry. eapply Forall2_length, Hr.
  - split; [exact Hr|split; [|reflexivity]].
    symmetry. eapply Forall2_length, Hr.
Qed.

Lemma safe_indexing_total a idx :
  Forall (fun i => i < shape0 a) idx -> exists a', safe_indexing a idx = Ok a'.
Proof.
  destruct a as [v|d rows]; cbn [safe_indexing shape0]; intros H;
    destruct (take_list_total _ _ H) as [r ->]; eauto.
Qed.

Lemma samples_length a : length (samples a) = shape0 a.
Proof. destruct a; cbn; [apply length_map | reflexivity]. Qed.

Section Indices.
Variable perm : nat -> list nat.
Hypothesis perm_shuffles : shuffles perm.
Variable n : nat.

Lemma perm_length : length (perm n) = n.
Proof. rewrite (Permutation_length (perm_shuffles n)). apply length_seq. Qed.

Lemma ind_train_skipn : ind_train (perm n) n = skipn (n_test n) (perm n).
Proof.
  unfold ind_train, n_train. apply firstn_all2.
  rewrite length_skipn, perm_length. lia.
Qed.

Lemma indices_partition :
  Permutation (ind_train (perm n) n ++ ind_test (perm n) n) (seq 0 n).
Proof.
  rewrite ind_train_skipn. unfold ind_test.
  rewrite Permutation_app_comm, firstn_skipn. apply perm_shuffles.
Qed.

Lemma indices_NoDup : NoDup (ind_train (perm n) n ++ ind_test (perm n) n).
Proof.
  apply NoDup_ListNoDup.
  eapply Permutation_NoDup; [symmetry; apply indices_partition | apply seq_NoDup].
Qed.

Lemma indices_disjoint i :
  In i (ind_train (perm n) n) -> In i (ind_test (perm n) n) -> False.
Proof.
  intros H1 H2. pose proof indices_NoDup as H.
  apply NoDup_app in H as (_ & H & _).
  apply (H i); by apply list_elem_of_In.
Qed.

Lemma indices_in_range i :
  i < n <-> In i (ind_train (perm n) n) \/ In i (ind_test (perm n) n).
Proof.
  rewrite <- in_app_iff. split; intros H.
  - eapply Permutation_in; [symmetry; apply indices_partition|].
    apply in_seq. lia.
  - eapply Permutation_in in H; [|apply indices_partition].
    apply in_seq in H. lia.
Qed.

Lemma ind_train_length : length (ind_train (perm n) n) = n_train n.
Proof.
  rewrite ind_train_skipn, length_skipn, perm_length. reflexivity.
Qed.

Lemma ind_test_length : length (ind_test (perm n) n) = n_test n.
Proof.
  unfold ind_test. rewrite length_firstn, perm_length.
  pose proof (n_test_le n). lia.
Qed.

End Indices.


Lemma lookup_combine {A B} (la : list A) (lb : list B) i a b :
  la !! i = Some a -> lb !! i = Some b -> combine la lb !! i = Some (a, b).
Proof.
  revert lb i. induction la as [|a0 la IH]; intros [|b0 lb] [|i] Ha Hb;
    try discriminate; cbn in *.
  - congruence.
  - eauto.
Qed.

Lemma Forall2_combine {A B} (la : list A) (lb : list B) idx ra rb :
  Forall2 (fun i a => la !! i = Some a) idx ra ->
  Forall2 (fun i b => lb !! i = Some b) idx rb ->
  Forall2 (fun i p => combine la lb !! i = Some p) idx (combine ra rb).
Proof.
  intros Ha. revert rb. induction Ha as [|i a idx ra Hi _ IH]; intros rb Hb.
  - inversion Hb; subst. constructor.
  - inversion Hb as [|? b ? rb' Hib Hb']; subst. cbn [combine].
    constructor; [by apply lookup_combine | by apply IH].
Qed.

(** The split puts every labelled sample into exactly one of the two
    subsets. *)
Lemma split_spec perm X Y :
  shuffles perm -> shape0 X = shape0 Y ->
  exists sp,
    train_test_split perm X Y = Ok sp
    /\ safe_indexing X (ind_train (perm (shape0 X)) (shape0 X)) = Ok (X_train sp)
    /\ safe_indexing X (ind_test (perm (shape0 X)) (shape0 X)) = Ok (X_test sp)
    /\ safe_indexing Y (ind_train (perm (shape0 X)) (shape0 X)) = Ok (y_train sp)
    /\ safe_indexing Y (ind_test (perm (shape0 X)) (shape0 X)) = Ok (y_test sp).
Proof.
  intros Hp Hn. unfold train_test_split.
  rewrite (proj2 (Nat.eqb_eq _ _) Hn). cbv zeta.
  set (n := shape0 X).
  assert (Htr : Forall (fun i => i < n) (ind_train (perm n) n)).
  { apply Forall_forall. intros i Hi. apply list_elem_of_In in Hi.
    apply (indices_in_range perm Hp n). by left. }
  assert (Hte : Forall (fun i => i < n) (ind_test (perm n) n)).
  { apply Forall_forall. intros i Hi. apply list_elem_of_In in Hi.
    apply (indices_in_range perm Hp n). by right. }
  destruct (safe_indexing_total X _ Htr) as [xtr ->].
  destruct (safe_indexing_total X _ Hte) as [xte ->].
  assert (Htr' : Forall (fun i => i < shape0 Y) (ind_train (perm n) n))
    by (rewrite <- Hn; exact Htr).
  assert (Hte' : Forall (fun i => i < shape0 Y) (ind_test (perm n) n))
    by (rewrite <- Hn; exact Hte).
  destruct (safe_indexing_total Y _ Htr') as [ytr ->].
  destruct (safe_indexing_total Y _ Hte') as [yte ->].
  eexists. split; [reflexivity|]. cbn. auto.
Qed.

Lemma split_inv perm X Y sp :
  train_test_split perm X Y = Ok sp ->
  shape0 X = shape0 Y
  /\ safe_indexing X (ind_train (perm (shape0 X)) (shape0 X)) = Ok (X_train sp)
  /\ safe_indexing X (ind_test (perm (shape0 X)) (shape0 X)) = Ok (X_test sp)
  /\ safe_indexing Y (ind_train (perm (shape0 X)) (shape0 X)) = Ok (y_train sp)
  /\ safe_indexing Y (ind_test (perm (shape0 X)) (shape0 X)) = Ok (y_test sp).
Proof.
  unfold train_test_split. destruct (Nat.eqb (shape0 X) (shape0 Y)) eqn:Hn; [|discriminate].
  apply Nat.eqb_eq in Hn. cbv zeta.
  destruct (safe_indexing X (ind_train _ _)) as [xtr|?];
    destruct (safe_indexing X (ind_test _ _)) as [xte|?];
    destruct (safe_indexing Y (ind_train _ _)) as [ytr|?];
    destruct (safe_indexing Y (ind_test _ _)) as [yte|?]; try discriminate.
  intros [= <-]. cbn. auto.
Qed.

End SplitFacts.

Import SplitFacts.

(** * Running the notebook symbolically *)

Ltac unfold_notebook H :=
  unfold run, notebook, cell1, cell2, cell3, cell4, cell5, cell6, cell7, cell8, cell9,
    np_seed, path_exists, subprocess_call_shell, h5py_open, np_array_of, Sequential,
    model_add, model_summary, model_compile, train_test_split, StandardScaler,
    scaler_fit, scaler_transform, open_for_writing, pickle_dump_to, model_fit,
    model_save, initial_state in H.

Ltac reduce_notebook H :=
  lazy [bind ret raise lift lib get_fs put_fs deref assign alloc for_each combine
        fs heap trace negb fst snd shape1
        Keras.fit Keras.add Keras.compile Keras.empty Keras.model_input_dim
        Keras.target_fits Keras.output_layer last Keras.units
        Keras.layers Keras.compiled Keras.history Keras.x Keras.y
        Keras.batch_size Keras.epochs Keras.validation_split
        Keras.input_dim Dense] in H;
  cbn [app length lookup list_lookup insert list_insert] in H;
  try rewrite !lookup_empty in H.

(** The term on which the next step of the run branches. *)
Ltac innermost x :=
  lazymatch x with
  | match ?y with _ => _ end => innermost y
  | (match ?y with _ => _ end) _ => innermost y
  | _ => x
  end.

Ltac step H :=
  let x := match type of H with ?l = _ => innermost l end in
  lazymatch x with
  | (_, _) => fail
  | _ => first [ match goal with Heq : x = _ |- _ => rewrite Heq in H end
               | destruct x eqn:? ]; reduce_notebook H
  end.

Ltac prefix_of_calls :=
  unfold calls, setup_calls, build_calls, train_calls, shallow_layers, deep_layers, Dense;
  cbn [app map];
  first [ match goal with d : nat |- _ => exists d; eexists; reflexivity end
        | exists 0; eexists; reflexivity ].

Ltac rewrite_dataset_lookup :=
  repeat match goal with
         | Heq : ?m !! "HIGGS.h5" = _ |- context [?m !! "HIGGS.h5"] => rewrite Heq
         end.

(** Every run makes an initial segment of the calls of a complete run,
    leaves a dataset file that was present untouched, and, when it
    completes, ends in the state described by [completed]. *)
Lemma run_spec E files st r :
  run E files = (st, r) ->
  (exists d, trace st `prefix_of` calls (downloads files) d)
  /\ (forall f, files !! "HIGGS.h5" = Some f -> fs st !! "HIGGS.h5" = Some f)
  /\ (forall g, r = Ok g -> exists d x, completed E files st g d x).
Proof.
  intros H. unfold_notebook H. reduce_notebook H.
  repeat step H.
  all: injection H as <- <-.
  all: unfold downloads, files_after_download.
  all: rewrite_dataset_lookup.
  all: cbn [fs heap trace].
  all: split; [ prefix_of_calls | split ].
  all: try (intros ? ?; discriminate).
  all: try (intros f0 Hf0; repeat (rewrite lookup_insert_ne by done);
            first [exact Hf0 | congruence]).
  all: intros ? [= <-].
  all: repeat match goal with
              | Hb : Nat.eqb _ _ = true |- _ => apply Nat.eqb_eq in Hb
              | Hb : Nat.eqb _ _ = false |- _ => apply Nat.eqb_neq in Hb
              end.
  all: cbn [shape0] in *; subst.
  all: repeat match goal with Hf : fault _ _ = _ |- _ => clear Hf end.
  all: match goal with
       | Ht : StandardScaler.transform _ _ = Ok (Arr2 ?d ?rows') |- _ =>
           exists d, (Arr2 d rows')
       end.
  all: match goal with
       | Hs : ModelSelection.train_test_split _ _ _ = Ok ?sp |- _ => destruct sp
       end.
  all: cbn [ModelSelection.X_train ModelSelection.X_test
            ModelSelection.y_train ModelSelection.y_test] in *.
  all: split;
    cbn [inputs targets inputs_train inputs_test targets_train targets_test
         model_shallow model_deep preprocessing_input fs heap trace shape0];
    unfold files_after_download, downloads;
    rewrite_dataset_lookup;
    try match goal with Hs : shell _ _ _ = _ |- _ => rewrite Hs; cbn [snd] end;
    try assumption; try reflexivity; eauto.
  all: rewrite insert_insert_eq; reflexivity.
Qed.

(** * Facts about runs *)

Lemma run_completed E files st g :
  run E files = (st, Ok g) -> exists d x, completed E files st g d x.
Proof. intros H. apply (run_spec E files st (Ok g) H). reflexivity. Qed.

Lemma run_prefix E files st r :
  run E files = (st, r) -> exists d, trace st `prefix_of` calls (downloads files) d.
Proof. intros H. apply (run_spec E files st r H). Qed.

Lemma run_keeps_dataset E files st r f :
  run E files = (st, r) -> files !! "HIGGS.h5" = Some f -> fs st !! "HIGGS.h5" = Some f.
Proof. intros H. apply (run_spec E files st r H). Qed.

Lemma run_disciplined E files st r t e :
  run E files = (st, r) -> t <> [] -> t `prefix_of` trace st -> fault E t = Some e ->
  t = trace st /\ r = Raise e.
Proof.
  intros H Hne Ht Hf.
  destruct (disciplined_notebook E _ _ _ H) as [_ Q].
  apply Q; try assumption. apply prefix_nil.
Qed.

Lemma completes_inv E files :
  is_ok (snd (run E files)) = true -> exists st g, run E files = (st, Ok g).
Proof.
  destruct (run E files) as [st [g|e]]; cbn; [eauto | discriminate].
Qed.

Lemma run_loads E files X Y st g :
  files !! "HIGGS.h5" = Some (HDF5 (<["features" := X]> (<["targets" := Y]> ∅))) ->
  run E files = (st, Ok g) -> inputs g = X /\ targets g = Y.
Proof.
  intros Hf H. destruct (run_completed _ _ _ _ H) as (d & x & C).
  destruct (c_file _ _ _ _ _ _ C) as (datasets & Hd & HX & HY).
  unfold files_after_download, downloads in Hd. rewrite Hf in Hd.
  cbv iota in Hd. rewrite Hf in Hd. injection Hd as <-.
  rewrite lookup_insert_eq in HX.
  rewrite lookup_insert_ne, lookup_insert_eq in HY by done.
  split; congruence.
Qed.

Lemma quiet_shuffles : shuffles (permutation Sample.quiet).
Proof. intros n. cbn. symmetry. apply Permutation_rev. Qed.

Lemma quiet_fault_free : fault_free Sample.quiet.
Proof. intros t. reflexivity. Qed.

Lemma quiet_present_completes :
  exists st g, run Sample.quiet Sample.present = (st, Ok g)
               /\ inputs g = Sample.features /\ targets g = Sample.labels.
Proof.
  destruct (completes_inv Sample.quiet Sample.present) as (st & g & H).
  - vm_compute. reflexivity.
  - exists st, g. split; [exact H|].
    eapply run_loads; [|exact H]. apply lookup_singleton_eq.
Qed.

Lemma quiet_present'_completes :
  exists st g, run Sample.quiet Sample.present' = (st, Ok g)
               /\ inputs g = Sample.features' /\ targets g = Sample.labels.
Proof.
  destruct (completes_inv Sample.quiet Sample.present') as (st & g & H).
  - vm_compute. reflexivity.
  - exists st, g. split; [exact H|].
    eapply run_loads; [|exact H]. apply lookup_singleton_eq.
Qed.

Lemma quiet_odd_completes :
  exists st g, run Sample.quiet Sample.odd_present = (st, Ok g)
               /\ inputs g = Sample.features /\ targets g = Sample.odd_labels.
Proof.
  destruct (completes_inv Sample.quiet Sample.odd_present) as (st & g & H).
  - vm_compute. reflexivity.
  - exists st, g. split; [exact H|].
    eapply run_loads; [|exact H]. apply lookup_singleton_eq.
Qed.

Lemma quiet_download_completes :
  exists st g, run Sample.quiet ∅ = (st, Ok g).
Proof. apply completes_inv. vm_compute. reflexivity. Qed.

Lemma take_list_agree {A} (l1 l2 : list A) idx :
  (forall i, In i idx -> l1 !! i = l2 !! i) ->
  ModelSelection.take_list l1 idx = ModelSelection.take_list l2 idx.
Proof.
  induction idx as [|i idx IH]; intros H; cbn [ModelSelection.take_list].
  - reflexivity.
  - rewrite (H i) by (left; reflexivity).
    rewrite IH by (intros; apply H; right; assumption). reflexivity.
Qed.

Lemma safe_indexing_agree a1 a2 idx :
  shape1 a1 = shape1 a2 ->
  (forall i, In i idx -> samples a1 !! i = samples a2 !! i) ->
  ModelSelection.safe_indexing a1 idx = ModelSelection.safe_indexing a2 idx.
Proof.
  destruct a1 as [v1|d1 rows1], a2 as [v2|d2 rows2]; cbn [shape1 samples];
    try discriminate; intros Hd H; cbn [ModelSelection.safe_indexing].
  - rewrite (take_list_agree v1 v2 idx); [reflexivity|].
    intros i Hi. specialize (H i Hi). rewrite !list_lookup_fmap in H.
    destruct (v1 !! i), (v2 !! i); cbn in H; congruence.
  - injection Hd as ->. rewrite (take_list_agree rows1 rows2 idx H). reflexivity.
Qed.

(** * The claims *)

(** C2.  The scaler depends on the training rows only: two complete runs
    on datasets of the same shape whose rows agree at the training indices
    fit, and pickle, the same scaler, whatever the held-out rows and the
    targets are; the scaler is the one fitted on the training subset. *)
Theorem scaler_ignores_held_out E files1 files2 st1 g1 st2 g2 :
  run E files1 = (st1, Ok g1) ->
  run E files2 = (st2, Ok g2) ->
  shape0 (inputs g1) = shape0 (inputs g2) ->
  shape1 (inputs g1) = shape1 (inputs g2) ->
  (forall i,
      In i (ModelSelection.ind_train (permutation E (shape0 (inputs g1))) (shape0 (inputs g1))) ->
      samples (inputs g1) !! i = samples (inputs g2) !! i) ->
  preprocessing_input g1 = preprocessing_input g2
  /\ StandardScaler.fit StandardScaler.new (inputs_train g1) = Ok (preprocessing_input g1)
  /\ fs st1 !! "HIGGS_preprocessing.pickle" = Some (Pickle (preprocessing_input g1))
  /\ fs st2 !! "HIGGS_preprocessing.pickle" = fs st1 !! "HIGGS_preprocessing.pickle".
Proof.
  intros H1 H2 Hn Hd Hagree.
  destruct (run_completed _ _ _ _ H1) as (d1 & x1 & C1).
  destruct (run_completed _ _ _ _ H2) as (d2 & x2 & C2).
  destruct (split_inv _ _ _ _ (c_split _ _ _ _ _ _ C1)) as (_ & T1 & _).
  destruct (split_inv _ _ _ _ (c_split _ _ _ _ _ _ C2)) as (_ & T2 & _).
  cbn [ModelSelection.X_train] in T1, T2. rewrite <- Hn in T2.
  rewrite (safe_indexing_agree _ _ _ Hd Hagree) in T1.
  assert (Htrain : inputs_train g1 = inputs_train g2) by congruence.
  pose proof (c_scaler _ _ _ _ _ _ C1) as S1.
  pose proof (c_scaler _ _ _ _ _ _ C2) as S2.
  assert (Hsc : preprocessing_input g1 = preprocessing_input g2)
    by (rewrite Htrain in S1; congruence).
  split; [exact Hsc|]. split; [exact S1|].
  rewrite (c_fs _ _ _ _ _ _ C1), (c_fs _ _ _ _ _ _ C2).
  rewrite !(lookup_insert_ne _ "HIGGS_deep.h5") by done.
  rewrite !(lookup_insert_ne _ "HIGGS_shallow.h5") by done.
  rewrite !lookup_insert_eq. split; congruence.
Qed.

(** The two sample datasets differ in their held-out rows only and give the
    same scaler. *)
Lemma scaler_ignores_held_out_witness :
  exists st1 g1 st2 g2,
    run Sample.quiet Sample.present = (st1, Ok g1)
    /\ run Sample.quiet Sample.present' = (st2, Ok g2)
    /\ inputs g1 <> inputs g2
    /\ preprocessing_input g1 = preprocessing_input g2.
Proof.
  destruct quiet_present_completes as (st1 & g1 & H1 & X1 & _).
  destruct quiet_present'_completes as (st2 & g2 & H2 & X2 & _).
  exists st1, g1, st2, g2. split; [exact H1|]. split; [exact H2|]. split.
  - rewrite X1, X2. intros [= H _]. cbn in H. lra.
  - apply (scaler_ignores_held_out Sample.quiet Sample.present Sample.present' st1 g1 st2 g2 H1 H2).
    + rewrite X1, X2. reflexivity.
    + rewrite X1, X2. reflexivity.
    + rewrite X1, X2.
      change (shape0 Sample.features) with 20.
      assert (Hi : ModelSelection.ind_train (permutation Sample.quiet 20) 20 = [1; 0])
        by (vm_compute; reflexivity).
      rewrite Hi. intros i [<-|[<-|[]]]; reflexivity.
Defined.

Ltac step_quiet Hff H :=
  let x := match type of H with ?l = _ => innermost l end in
  lazymatch x with
  | (_, _) => fail
  | _ => first [ rewrite Hff in H
               | match goal with Heq : x = _ |- _ => rewrite Heq in H end ];
         reduce_notebook H
  end.

Lemma split_at_quarter (n : nat) : Keras.split_at n 0.25 = 3 * n / 4.
Proof.
  unfold Keras.split_at, Qfloor. cbn [Qmult Qminus Qplus Qopp Qnum Qden inject_Z].
  apply Nat2Z.inj. rewrite Nat2Z.inj_div, Nat2Z.inj_mul.
  change (Z.of_nat 3) with 3%Z. change (Z.of_nat 4) with 4%Z.
  rewrite Z2Nat.id.
  - match goal with |- (?a / ?b)%Z = _ =>
      pose proof (Z.div_mod a b) as H1; pose proof (Z.mod_pos_bound a b) as H2 end.
    pose proof (Z.div_mod (3 * Z.of_nat n) 4) as H3.
    pose proof (Z.mod_pos_bound (3 * Z.of_nat n) 4) as H4.
    lia.
  - apply Z.div_pos; lia.
Qed.

(** The numbers printed by the recorded run: 11 000 000 samples give
    1 100 000 training samples, of which 825 000 are trained on and 275 000
    validated on. *)
Example recorded_split_sizes :
  ModelSelection.n_train (Z.to_nat 11000000) = Z.to_nat 1100000
  /\ Keras.split_at (Z.to_nat 1100000) 0.25 = Z.to_nat 825000.
Proof.
  rewrite n_train_formula, split_at_quarter. split.
  - apply Nat2Z.inj. rewrite Nat2Z.inj_div, !Z2Nat.id by lia. reflexivity.
  - apply Nat2Z.inj. rewrite Nat2Z.inj_div, Nat2Z.inj_mul, !Z2Nat.id by lia. reflexivity.
Qed.

(** The parameter counts printed by [model.summary()] for 28 features. *)
Example recorded_summaries :
  Keras.summary_rows 28 (shallow_layers 28) = [(1000, 29000%Z); (1, 1001%Z)]
  /\ Keras.total_params 28 (shallow_layers 28) = 30001%Z
  /\ Keras.summary_rows 28 (deep_layers 28) =
     [(300, 8700%Z); (300, 90300%Z); (300, 90300%Z); (300, 90300%Z);
      (300, 90300%Z); (1, 301%Z)]
  /\ Keras.total_params 28 (deep_layers 28) = 370201%Z.
Proof. repeat split; vm_compute; reflexivity. Qed.

(** C3.  A complete run has constructed exactly two models.  The shallow
    one has one hidden layer of 1000 tanh units, the deep one five hidden
    layers of 300 relu units; both end in one sigmoid unit, and both take as
    many inputs as the loaded feature matrix has columns. *)
Theorem two_architectures E files st g :
  run E files = (st, Ok g) ->
  exists d shallow deep,
    shape1 (inputs g) = Ok d
    /\ heap st = [shallow; deep]
    /\ heap st !! model_shallow g = Some shallow
    /\ heap st !! model_deep g = Some deep
    /\ count is_construct (trace st) = 2
    /\ Keras.hidden_layers shallow = [Dense 1000 "glorot_normal" "tanh" (Some d)]
    /\ Keras.output_layer shallow = Some (Dense 1 "glorot_uniform" "sigmoid" None)
    /\ Keras.model_input_dim shallow = Some d
    /\ map Keras.units (Keras.hidden_layers deep) = [300; 300; 300; 300; 300]
    /\ map Keras.activation (Keras.hidden_layers deep) = ["relu"; "relu"; "relu"; "relu"; "relu"]
    /\ Keras.output_layer deep = Some (Dense 1 "glorot_uniform" "sigmoid" None)
    /\ Keras.model_input_dim deep = Some d.
Proof.
  intros H. destruct (run_completed _ _ _ _ H) as (d & x & C).
  destruct (c_models _ _ _ _ _ _ C) as [-> ->].
  exists d, (trained (shallow_layers d) x (targets_train g)),
    (trained (deep_layers d) x (targets_train g)).
  rewrite (c_heap _ _ _ _ _ _ C), (c_trace _ _ _ _ _ _ C).
  split; [exact (c_shape _ _ _ _ _ _ C)|].
  repeat split. destruct (downloads files); reflexivity.
Qed.

(** On the sample dataset both models take two inputs. *)
Lemma two_architectures_witness :
  exists st g shallow deep,
    run Sample.quiet Sample.present = (st, Ok g)
    /\ heap st = [shallow; deep]
    /\ Keras.model_input_dim shallow = Some 2
    /\ Keras.model_input_dim deep = Some 2.
Proof.
  destruct quiet_present_completes as (st & g & H & X & _).
  destruct (two_architectures Sample.quiet Sample.present st g H)
    as (d & shallow & deep & Hd & Hh & _ & _ & _ & _ & _ & Hs & _ & _ & _ & Hp).
  rewrite X in Hd. injection Hd as <-.
  exists st, g, shallow, deep. auto.
Defined.

Lemma labelled_length X Y :
  shape0 X = shape0 Y -> length (labelled X Y) = shape0 X.
Proof.
  intros H. unfold labelled. rewrite length_combine, !samples_length. lia.
Qed.

Lemma labelled_selected X Y X' Y' idx :
  ModelSelection.safe_indexing X idx = Ok X' ->
  ModelSelection.safe_indexing Y idx = Ok Y' ->
  Forall2 (fun i p => labelled X Y !! i = Some p) idx (labelled X' Y').
Proof.
  intros HX HY.
  destruct (safe_indexing_ok _ _ _ HX) as (FX & _).
  destruct (safe_indexing_ok _ _ _ HY) as (FY & _).
  exact (Forall2_combine _ _ _ _ _ FX FY).
Qed.

(** C5.  In a complete run the split partitions the loaded samples: the
    training and test indices together are a permutation of all sample
    indices, so every index is in exactly one of the two lists; the training
    and test arrays hold the rows at those indices, each feature row next to
    the target of the same index; and the labelled samples of the two
    subsets together are exactly the labelled samples of the dataset. *)
Theorem split_partitions_dataset E files st g :
  shuffles (permutation E) ->
  run E files = (st, Ok g) ->
  let n := shape0 (inputs g) in
  let itr := ModelSelection.ind_train (permutation E n) n in
  let ite := ModelSelection.ind_test (permutation E n) n in
  shape0 (targets g) = n
  /\ Permutation (itr ++ ite) (seq 0 n)
  /\ (forall i, i < n -> (In i itr /\ ~ In i ite) \/ (In i ite /\ ~ In i itr))
  /\ Forall2 (fun i p => labelled (inputs g) (targets g) !! i = Some p) itr
       (labelled (inputs_train g) (targets_train g))
  /\ Forall2 (fun i p => labelled (inputs g) (targets g) !! i = Some p) ite
       (labelled (inputs_test g) (targets_test g))
  /\ Permutation
       (labelled (inputs_train g) (targets_train g)
        ++ labelled (inputs_test g) (targets_test g))
       (labelled (inputs g) (targets g))
  /\ shape0 (inputs_train g) = ModelSelection.n_train n
  /\ shape0 (inputs_test g) = ModelSelection.n_test n
  /\ ModelSelection.n_train n + ModelSelection.n_test n = n.
Proof.
  intros Hperm H n itr ite. destruct (run_completed _ _ _ _ H) as (d & x & C).
  destruct (split_inv _ _ _ _ (c_split _ _ _ _ _ _ C)) as (Hn & X1 & X2 & Y1 & Y2).
  cbn [ModelSelection.X_train ModelSelection.X_test
       ModelSelection.y_train ModelSelection.y_test] in X1, X2, Y1, Y2.
  fold n in X1, X2, Y1, Y2. fold itr in X1, Y1. fold ite in X2, Y2.
  pose proof (labelled_selected _ _ _ _ _ X1 Y1) as Ftr.
  pose proof (labelled_selected _ _ _ _ _ X2 Y2) as Fte.
  split; [symmetry; exact Hn|].
  split; [exact (indices_partition _ Hperm n)|]. split.
  { intros i Hi. apply (indices_in_range _ Hperm n) in Hi as [Hi|Hi]; [left|right];
      (split; [exact Hi|]); intros Hi'.
    - exact (indices_disjoint _ Hperm n i Hi Hi').
    - exact (indices_disjoint _ Hperm n i Hi' Hi). }
  split; [exact Ftr|]. split; [exact Fte|]. split.
  { eapply select_all_permutes; [|apply Forall2_app; eassumption].
    rewrite (labelled_length _ _ Hn). exact (indices_partition _ Hperm n). }
  destruct (safe_indexing_ok _ _ _ X1) as (_ & L1 & _).
  destruct (safe_indexing_ok _ _ _ X2) as (_ & L2 & _).
  rewrite L1, L2. unfold itr, ite.
  rewrite (ind_train_length _ Hperm), (ind_test_length _ Hperm).
  repeat split. unfold ModelSelection.n_train. pose proof (n_test_le n). lia.
Qed.

(** The twenty sample rows are split into two training and eighteen test
    rows. *)
Lemma split_partitions_dataset_witness :
  exists st g,
    run Sample.quiet Sample.present = (st, Ok g)
    /\ shape0 (inputs_train g) = 2 /\ shape0 (inputs_test g) = 18.
Proof.
  destruct quiet_present_completes as (st & g & H & X & _).
  destruct (split_partitions_dataset Sample.quiet Sample.present st g quiet_shuffles H)
    as (_ & _ & _ & _ & _ & _ & Htr & Hte & _).
  rewrite X in Htr, Hte. exists st, g. auto.
Defined.

Lemma labelled_transformed (f : list R -> list R) X0 Y0 d rows Y idx :
  Forall2 (fun i s => labelled X0 Y0 !! i = Some s) idx (labelled (Arr2 d rows) Y) ->
  Forall2 (fun i s => exists row, labelled X0 Y0 !! i = Some (row, snd s) /\ fst s = f row)
    idx (labelled (Arr2 d (map f rows)) Y).
Proof.
  unfold labelled. cbn [samples]. generalize (samples Y). intros ys.
  revert idx ys. induction rows as [|r rows IH]; intros idx ys HF.
  - cbn [map combine] in *. inversion HF. constructor.
  - destruct ys as [|y ys]; cbn [map combine] in *; [inversion HF; constructor|].
    inversion HF as [|i s idx' l' Hi HF' E1 E2]. subst. constructor.
    + exists r. split; [exact Hi | reflexivity].
    + apply IH. exact HF'.
Qed.

(** C4.  In a complete run each of the two models has been compiled with
    the binary cross-entropy loss and the nadam optimizer and trained by
    exactly one [fit] call of its own, with batch size 100, 10 epochs and a
    validation split of 0.25.  The samples passed to [fit] are the samples
    of the dataset at the training indices, in that order: each feature row
    standardised by the fitted scaler, next to the target of the same
    index.  The held-out arrays hold the samples at the test indices, and
    no training index is a test index.  So what [fit] is given does not
    depend on the held-out samples: a complete run on another dataset of
    the same shape that agrees with this one at the training indices passes
    the same arguments to [fit].  Of the samples it is given, [fit] trains
    on the first three quarters, at least one sample, and validates on the
    others. *)
Theorem training_configuration E files st g :
  shuffles (permutation E) ->
  run E files = (st, Ok g) ->
  let n := shape0 (inputs g) in
  let itr := ModelSelection.ind_train (permutation E n) n in
  let ite := ModelSelection.ind_test (permutation E n) n in
  exists x p,
    preprocessing_input g = Some p
    /\ StandardScaler.transform (preprocessing_input g) (inputs_train g) = Ok x
    /\ length (heap st) = 2
    /\ (forall m, In m (heap st) ->
          Keras.compiled m =
            Some {| Keras.loss := "binary_crossentropy"; Keras.optimizer := "nadam";
                    Keras.metrics := ["accuracy"] |}
          /\ Keras.history m =
               [{| Keras.x := x; Keras.y := targets_train g; Keras.batch_size := 100;
                   Keras.epochs := 10; Keras.validation_split := 0.25 |}])
    /\ List.filter is_training (trace st) =
         [Sequential_fit (model_shallow g) 100 10 0.25;
          Sequential_fit (model_deep g) 100 10 0.25]
    /\ Forall2 (fun i s =>
                  exists row,
                    labelled (inputs g) (targets g) !! i = Some (row, snd s)
                    /\ fst s = StandardScaler.transform_row p row)
         itr (labelled x (targets_train g))
    /\ Forall2 (fun i s => labelled (inputs g) (targets g) !! i = Some s)
         ite (labelled (inputs_test g) (targets_test g))
    /\ (forall i, In i itr -> ~ In i ite)
    /\ (forall E2 files2 st2 g2,
          permutation E2 = permutation E ->
          run E2 files2 = (st2, Ok g2) ->
          shape0 (inputs g2) = n ->
          shape1 (inputs g2) = shape1 (inputs g) ->
          shape1 (targets g2) = shape1 (targets g) ->
          (forall i, In i itr ->
             samples (inputs g2) !! i = samples (inputs g) !! i
             /\ samples (targets g2) !! i = samples (targets g) !! i) ->
          map Keras.history (heap st2) = map Keras.history (heap st))
    /\ shape0 x = shape0 (targets_train g)
    /\ shape0 x = length itr
    /\ Keras.split_at (shape0 x) 0.25 = 3 * shape0 x / 4
    /\ 1 <= Keras.split_at (shape0 x) 0.25
    /\ Keras.split_at (shape0 x) 0.25 < shape0 x.
Proof.
  intros Hperm H n itr ite. subst n itr ite.
  destruct (run_completed _ _ _ _ H) as (d & x & C).
  destruct (c_models _ _ _ _ _ _ C) as [-> ->].
  destruct (split_inv _ _ _ _ (c_split _ _ _ _ _ _ C)) as (Hn & X1 & X2 & Y1 & Y2).
  cbn [ModelSelection.X_train ModelSelection.X_test
       ModelSelection.y_train ModelSelection.y_test] in X1, X2, Y1, Y2.
  pose proof (c_scaler _ _ _ _ _ _ C) as S.
  destruct (ScalerFacts.fit_inv _ _ S) as (d0 & r0 & rows0 & Hxtr & Hsc).
  pose proof (c_transform _ _ _ _ _ _ C) as T.
  pose proof T as T'. rewrite Hxtr, Hsc, ScalerFacts.transform_fitted in T'.
  injection T' as Tx.
  destruct (c_checked _ _ _ _ _ _ C) as (rows' & Hx & Hlen).
  pose proof (c_trained _ _ _ _ _ _ C) as Hpos.
  exists x, (StandardScaler.fit_rows d0 (r0 :: rows0)).
  rewrite (c_heap _ _ _ _ _ _ C), (c_trace _ _ _ _ _ _ C).
  split; [exact Hsc|]. split; [exact T|].
  split; [reflexivity|]. split.
  { intros m [<-|[<-|[]]]; split; reflexivity. }
  split; [destruct (downloads files); reflexivity|].
  split.
  { rewrite <- Tx.
    apply (labelled_transformed
             (StandardScaler.transform_row (StandardScaler.fit_rows d0 (r0 :: rows0)))
             (inputs g) (targets g) d0 (r0 :: rows0)).
    rewrite <- Hxtr.
    exact (labelled_selected _ _ _ _ _ X1 Y1). }
  split; [exact (labelled_selected _ _ _ _ _ X2 Y2)|].
  split.
  { intros i Hi Hi'. exact (indices_disjoint _ Hperm _ i Hi Hi'). }
  split.
  { intros E2 files2 st2 g2 HE H2 Hn2 Hd2 Hdt2 Hagree.
    destruct (run_completed _ _ _ _ H2) as (d2 & x2 & C2).
    destruct (split_inv _ _ _ _ (c_split _ _ _ _ _ _ C2)) as (_ & X1' & _ & Y1' & _).
    cbn [ModelSelection.X_train ModelSelection.y_train] in X1', Y1'.
    rewrite HE, Hn2 in X1', Y1'.
    rewrite (safe_indexing_agree _ _ _ Hd2 (fun i Hi => proj1 (Hagree i Hi))) in X1'.
    rewrite (safe_indexing_agree _ _ _ Hdt2 (fun i Hi => proj2 (Hagree i Hi))) in Y1'.
    assert (Hxe : inputs_train g2 = inputs_train g) by congruence.
    assert (Hye : targets_train g2 = targets_train g) by congruence.
    pose proof (c_scaler _ _ _ _ _ _ C2) as S2. rewrite Hxe in S2.
    assert (Hpe : preprocessing_input g2 = preprocessing_input g) by congruence.
    pose proof (c_transform _ _ _ _ _ _ C2) as T2. rewrite Hxe, Hpe in T2.
    assert (Hx2 : x2 = x) by congruence.
    rewrite (c_heap _ _ _ _ _ _ C2), Hx2, Hye. reflexivity. }
  destruct (safe_indexing_ok _ _ _ Y1) as (_ & L1 & _).
  rewrite Hx in *. cbn [shape0] in *.
  rewrite split_at_quarter in *.
  split; [exact Hlen|]. split; [congruence|]. split; [reflexivity|].
  split; [lia|].
  apply Nat.Div0.div_lt_upper_bound.
  destruct (length rows'); [exfalso; apply Hpos; reflexivity | lia].
Qed.

(** The two sample datasets differ in their held-out rows only: both runs
    pass the same arguments to [fit]. *)
Lemma training_configuration_witness :
  exists st1 g1 st2 g2,
    run Sample.quiet Sample.present = (st1, Ok g1)
    /\ run Sample.quiet Sample.present' = (st2, Ok g2)
    /\ inputs g1 <> inputs g2
    /\ map Keras.history (heap st2) = map Keras.history (heap st1).
Proof.
  destruct quiet_present_completes as (st1 & g1 & H1 & X1 & Y1).
  destruct quiet_present'_completes as (st2 & g2 & H2 & X2 & Y2).
  exists st1, g1, st2, g2. split; [exact H1|]. split; [exact H2|]. split.
  - rewrite X1, X2. intros [= H _]. cbn in H. lra.
  - destruct (training_configuration Sample.quiet Sample.present st1 g1 quiet_shuffles H1)
      as (x & p & _ & _ & _ & _ & _ & _ & _ & _ & Hsame & _).
    apply (Hsame Sample.quiet Sample.present' st2 g2 eq_refl H2).
    + rewrite X1, X2. reflexivity.
    + rewrite X1, X2. reflexivity.
    + rewrite Y1, Y2. reflexivity.
    + rewrite X1, X2, Y1, Y2.
      change (shape0 Sample.features) with 20.
      assert (Hi : ModelSelection.ind_train (permutation Sample.quiet 20) 20 = [1; 0])
        by (vm_compute; reflexivity).
      rewrite Hi. intros i [<-|[<-|[]]]; split; reflexivity.
Defined.

Lemma fit_before_save (download : bool) (d : nat) (m : loc) :
  before (is_fit_of m) (is_save_of m) (calls download d).
Proof.
  apply before_b_sound. destruct m as [|[|m]], download; reflexivity.
Qed.

(** C6.  A complete run leaves three artifacts: the pickle file holds the
    scaler fitted on the training inputs, and the two model files hold the
    shallow and the deep model, each with its one completed [fit] in its
    history.  In every run, complete or not, a model is saved only after
    the [fit] call on it. *)
Theorem artifacts_persisted E files st r :
  run E files = (st, r) ->
  (forall m, before (is_fit_of m) (is_save_of m) (trace st))
  /\ (forall g, r = Ok g ->
      exists shallow deep,
        heap st !! model_shallow g = Some shallow
        /\ heap st !! model_deep g = Some deep
        /\ length (Keras.history shallow) = 1
        /\ length (Keras.history deep) = 1
        /\ StandardScaler.fit StandardScaler.new (inputs_train g) = Ok (preprocessing_input g)
        /\ fs st !! "HIGGS_preprocessing.pickle" = Some (Pickle (preprocessing_input g))
        /\ fs st !! "HIGGS_shallow.h5" = Some (KerasH5 shallow)
        /\ fs st !! "HIGGS_deep.h5" = Some (KerasH5 deep)
        /\ (forall p, p <> "HIGGS_preprocessing.pickle" -> p <> "HIGGS_shallow.h5" ->
                      p <> "HIGGS_deep.h5" ->
                      fs st !! p = files_after_download E files !! p)).
Proof.
  intros H. split.
  - intros m. destruct (run_prefix _ _ _ _ H) as (d & Hp).
    exact (before_prefix _ _ _ _ Hp (fit_before_save _ d m)).
  - intros g ->. destruct (run_completed _ _ _ _ H) as (d & x & C).
    destruct (c_models _ _ _ _ _ _ C) as [-> ->].
    exists (trained (shallow_layers d) x (targets_train g)),
      (trained (deep_layers d) x (targets_train g)).
    rewrite (c_heap _ _ _ _ _ _ C), (c_fs _ _ _ _ _ _ C).
    do 4 (split; [reflexivity|]).
    split; [exact (c_scaler _ _ _ _ _ _ C)|].
    split; [by rewrite !lookup_insert_ne, lookup_insert_eq by done|].
    split; [by rewrite lookup_insert_ne, lookup_insert_eq by done|].
    split; [by rewrite lookup_insert_eq|].
    intros p H1 H2 H3. by rewrite !lookup_insert_ne by done.
Qed.

(** The run that first fetches the sample dataset leaves the three files. *)
Lemma artifacts_persisted_witness :
  exists st g,
    run Sample.quiet ∅ = (st, Ok g)
    /\ fs st !! "HIGGS_preprocessing.pickle" = Some (Pickle (preprocessing_input g))
    /\ is_Some (fs st !! "HIGGS_shallow.h5")
    /\ is_Some (fs st !! "HIGGS_deep.h5").
Proof.
  destruct quiet_download_completes as (st & g & H).
  destruct (artifacts_persisted Sample.quiet ∅ st (Ok g) H) as [_ Hok].
  destruct (Hok g eq_refl) as (shallow & deep & _ & _ & _ & _ & _ & Hp & Hs & Hd & _).
  exists st, g. rewrite Hs, Hd. eauto.
Defined.

Lemma quiet_present_trace :
  trace (fst (run Sample.quiet Sample.present)) = calls false 2.
Proof. vm_compute. reflexivity. Qed.

(** C7 as stated fails: in the run on the sample dataset the models are
    constructed before the split. *)
Lemma models_constructed_before_split :
  ~ constructed_after_split_and_scaler (trace (fst (run Sample.quiet Sample.present))).
Proof.
  rewrite quiet_present_trace. intros [H _].
  specialize (H 19 5 sklearn_train_test_split Sequential_new
                eq_refl eq_refl eq_refl eq_refl).
  lia.
Qed.

(** C7 (amended).  A complete run makes its calls in the order of the
    cells of the notebook: the dataset is read, then both models are
    constructed, then the data is split, then the scaler is fitted, then the
    models are trained. *)
Theorem workflow_order E files st g :
  run E files = (st, Ok g) ->
  exists d,
    shape1 (inputs g) = Ok d
    /\ trace st = calls (downloads files) d
    /\ before is_load is_construct (trace st)
    /\ before is_construct is_split (trace st)
    /\ before is_construct is_scaler_fit (trace st)
    /\ before is_split is_scaler_fit (trace st)
    /\ before is_scaler_fit is_training (trace st).
Proof.
  intros H. destruct (run_completed _ _ _ _ H) as (d & x & C).
  exists d. rewrite (c_trace _ _ _ _ _ _ C).
  split; [exact (c_shape _ _ _ _ _ _ C)|]. split; [reflexivity|].
  repeat split; apply before_b_sound; destruct (downloads files); reflexivity.
Qed.

(** In the run on the sample dataset the models are constructed before the
    split. *)
Lemma workflow_order_witness :
  exists st g,
    run Sample.quiet Sample.present = (st, Ok g)
    /\ before is_construct is_split (trace st).
Proof.
  destruct quiet_present_completes as (st & g & H & _).
  destruct (workflow_order Sample.quiet Sample.present st g H) as (d & _ & _ & _ & Hb & _).
  exists st, g. auto.
Defined.


Lemma failing_run_raises :
  snd (run Sample.failing Sample.present) = Raise MemoryError
  /\ last (trace (fst (run Sample.failing Sample.present))) = Some (Sequential_fit 1 100 10 0.25).
Proof. split; vm_compute; reflexivity. Qed.


(** C9 as stated fails: the notebook loads a dataset whose targets are not
    all 0 or 1 and runs to completion on it. *)
Lemma targets_not_checked :
  exists st g, run Sample.quiet Sample.odd_present = (st, Ok g) /\ ~ binary (targets g).
Proof.
  destruct quiet_odd_completes as (st & g & H & _ & Y).
  exists st, g. split; [exact H|]. rewrite Y. intros Hb.
  unfold binary, Sample.odd_labels in Hb. cbn [samples] in Hb.
  rewrite List.Forall_forall in Hb.
  specialize (Hb [INR 2]).
  assert (Hin : In [INR 2] (map (fun x => [x]) (map (fun i => INR (i mod 3)) (seq 0 20)))).
  { do 2 right. left. reflexivity. }
  specialize (Hb Hin). inversion Hb as [|? ? [H2|H2] _]; cbn in H2; lra.
Qed.

Lemma cell3_inv E s s' X Y :
  cell3 E s = (s', Ok (X, Y)) ->
  exists datasets,
    fs s !! "HIGGS.h5" = Some (HDF5 datasets)
    /\ datasets !! "features" = Some X
    /\ datasets !! "targets" = Some Y
    /\ fs s' = fs s /\ heap s' = heap s.
Proof.
  intros H. destruct s as [files hp tr].
  unfold cell3, h5py_open, np_array_of in H. reduce_notebook H.
  repeat step H; try discriminate H.
  all: injection H as <- <- <-.
  all: cbn [fs heap]; eauto 10.
Qed.

Lemma cell3_loads E s datasets X Y :
  fault_free E ->
  fs s !! "HIGGS.h5" = Some (HDF5 datasets) ->
  datasets !! "features" = Some X ->
  datasets !! "targets" = Some Y ->
  exists s', cell3 E s = (s', Ok (X, Y)) /\ fs s' = fs s.
Proof.
  intros Hff Hf HX HY. destruct s as [files hp tr]. cbn [fs] in Hf.
  destruct (cell3 E {| fs := files; heap := hp; trace := tr |}) as [s' r] eqn:H.
  unfold cell3, h5py_open, np_array_of in H. reduce_notebook H.
  repeat step_quiet Hff H.
  injection H as <- <-. eexists. split; reflexivity.
Qed.

(** C9 (amended).  The dataset is read verbatim and unchecked.  Whenever
    cell 3 completes, the arrays it has loaded are exactly those stored
    under the keys "features" and "targets" of the dataset file, and the
    files are as they were.  When no call fails, it completes for whatever
    arrays the file stores under these keys, of any shape and with any
    entries.  So the loaded target vector is binary only if the stored one
    is; in a complete run the names [inputs] and [targets] are bound to the
    stored arrays. *)
Theorem dataset_read_verbatim E :
  (forall s s' X Y,
      cell3 E s = (s', Ok (X, Y)) ->
      exists datasets,
        fs s !! "HIGGS.h5" = Some (HDF5 datasets)
        /\ datasets !! "features" = Some X
        /\ datasets !! "targets" = Some Y
        /\ fs s' = fs s /\ heap s' = heap s)
  /\ (fault_free E ->
      forall s datasets X Y,
        fs s !! "HIGGS.h5" = Some (HDF5 datasets) ->
        datasets !! "features" = Some X ->
        datasets !! "targets" = Some Y ->
        exists s', cell3 E s = (s', Ok (X, Y)) /\ fs s' = fs s)
  /\ (forall files st g,
        run E files = (st, Ok g) ->
        exists datasets,
          files_after_download E files !! "HIGGS.h5" = Some (HDF5 datasets)
          /\ datasets !! "features" = Some (inputs g)
          /\ datasets !! "targets" = Some (targets g)).
Proof.
  split; [|split].
  - intros s s' X Y H. exact (cell3_inv E s s' X Y H).
  - intros Hff s datasets X Y Hf HX HY. exact (cell3_loads E s datasets X Y Hff Hf HX HY).
  - intros files st g H. destruct (run_completed _ _ _ _ H) as (d & x & C).
    exact (c_file _ _ _ _ _ _ C).
Qed.

(** Cell 3 loads twenty feature rows next to nineteen targets, and targets
    that are not all 0 or 1. *)
Lemma dataset_read_verbatim_witness :
  (exists s', cell3 Sample.quiet (initial_state Edge.mismatched)
              = (s', Ok (Sample.features, Edge.short_labels)))
  /\ (exists s', cell3 Sample.quiet (initial_state Sample.odd_present)
                 = (s', Ok (Sample.features, Sample.odd_labels))).
Proof.
  destruct (dataset_read_verbatim Sample.quiet) as (_ & Hload & _).
  split.
  - destruct (Hload quiet_fault_free (initial_state Edge.mismatched)
                (<["features" := Sample.features]> (<["targets" := Edge.short_labels]> ∅))
                Sample.features Edge.short_labels) as (s' & H & _).
    + apply lookup_singleton_eq.
    + apply lookup_insert_eq.
    + rewrite lookup_insert_ne by done. apply lookup_insert_eq.
    + exists s'. exact H.
  - destruct (Hload quiet_fault_free (initial_state Sample.odd_present)
                (<["features" := Sample.features]> (<["targets" := Sample.odd_labels]> ∅))
                Sample.features Sample.odd_labels) as (s' & H & _).
    + apply lookup_singleton_eq.
    + apply lookup_insert_eq.
    + rewrite lookup_insert_ne by done. apply lookup_insert_eq.
    + exists s'. exact H.
Defined.

Lemma count_none (p : call -> bool) (t : list call) :
  forallb (fun c => negb (p c)) t = true -> count p t = 0 /\ forall c, In c t -> p c = false.
Proof.
  unfold count. induction t as [|c t IH]; cbn [forallb List.filter]; intros H.
  - split; [reflexivity | intros c []].
  - apply andb_true_iff in H as [Hc Ht]. apply negb_true_iff in Hc. rewrite Hc.
    destruct (IH Ht) as [IH1 IH2]. split; [exact IH1|].
    intros c' [<-|Hin]; auto.
Qed.

Lemma no_download_in_calls d :
  forallb (fun c => negb (is_download c)) (calls false d) = true.
Proof. reflexivity. Qed.

Lemma run_without_download E files st r f :
  files !! "HIGGS.h5" = Some f -> run E files = (st, r) ->
  count is_download (trace st) = 0
  /\ (forall cmd, ~ In (subprocess_call cmd) (trace st))
  /\ fs st !! "HIGGS.h5" = Some f.
Proof.
  intros Hf H. destruct (run_prefix _ _ _ _ H) as (d & Hp).
  unfold downloads in Hp. rewrite Hf in Hp.
  pose proof (forallb_prefix _ _ _ Hp (no_download_in_calls d)) as Hall.
  destruct (count_none _ _ Hall) as [Hc Hn].
  split; [exact Hc|]. split; [|exact (run_keeps_dataset _ _ _ _ _ H Hf)].
  intros cmd Hin. specialize (Hn _ Hin). discriminate.
Qed.

(** C10.  When "HIGGS.h5" exists at the start, no run calls the shell and
    every run leaves that file as it was; so a run started on the files an
    earlier run left does not download either. *)
Theorem no_download_when_present E files st r f :
  files !! "HIGGS.h5" = Some f ->
  run E files = (st, r) ->
  count is_download (trace st) = 0
  /\ (forall cmd, ~ In (subprocess_call cmd) (trace st))
  /\ fs st !! "HIGGS.h5" = Some f
  /\ (forall E' st' r',
        run E' (fs st) = (st', r') ->
        count is_download (trace st') = 0 /\ fs st' !! "HIGGS.h5" = Some f).
Proof.
  intros Hf H. destruct (run_without_download _ _ _ _ _ Hf H) as (Hc & Hn & Hk).
  repeat (split; [assumption|]).
  intros E' st' r' H'.
  destruct (run_without_download _ _ _ _ _ Hk H') as (Hc' & _ & Hk'). auto.
Qed.

(** The run on a file system that holds the sample dataset does not call
    the shell and keeps the dataset. *)
Lemma no_download_when_present_witness :
  count is_download (trace (fst (run Sample.quiet Sample.present))) = 0
  /\ fs (fst (run Sample.quiet Sample.present)) !! "HIGGS.h5" = Some Sample.dataset.
Proof.
  destruct (run Sample.quiet Sample.present) as [st r] eqn:H.
  destruct (no_download_when_present Sample.quiet Sample.present st r Sample.dataset)
    as (Hc & _ & Hk & _).
  - apply lookup_singleton_eq.
  - exact H.
  - auto.
Defined.

(** When the file is missing the shell is called, once. *)
Example download_when_missing :
  count is_download (trace (fst (run Sample.quiet ∅))) = 1.
Proof. vm_compute. reflexivity. Qed.

(** A failed download is not an exception: the status of [wget] is ignored,
    the notebook goes on, opening the missing file creates an empty one, and
    reading the features from it raises.  The empty file is what a second
    run finds. *)
Example failed_download :
  snd (run Sample.offline ∅) = Raise (KeyError "features")
  /\ fs (fst (run Sample.offline ∅)) !! "HIGGS.h5" = Some (HDF5 ∅)
  /\ count is_download (trace (fst (run Sample.offline ∅))) = 1
  /\ count is_download
       (trace (fst (run Sample.offline (fs (fst (run Sample.offline ∅)))))) = 0.
Proof. repeat split; vm_compute; reflexivity. Qed.

(** * Errors on the dataset *)

(** X1.  When no call fails and the dataset file has no "features", the run
    raises [KeyError] for that key; when it has features but no "targets",
    it raises [KeyError] for "targets".  In both cases no model has been
    constructed and the files are as the download step left them. *)
Theorem missing_dataset_raises_KeyError E files datasets :
  fault_free E ->
  files_after_download E files !! "HIGGS.h5" = Some (HDF5 datasets) ->
  (datasets !! "features" = None ->
     snd (run E files) = Raise (KeyError "features"))
  /\ (is_Some (datasets !! "features") -> datasets !! "targets" = None ->
     snd (run E files) = Raise (KeyError "targets"))
  /\ (datasets !! "features" = None \/ datasets !! "targets" = None ->
     heap (fst (run E files)) = []
     /\ fs (fst (run E files)) = files_after_download E files).
Proof.
  intros Hff Hfile.
  assert (Hcases :
    forall k, (k = "features" /\ datasets !! "features" = None)
              \/ (k = "targets" /\ is_Some (datasets !! "features")
                  /\ datasets !! "targets" = None) ->
      snd (run E files) = Raise (KeyError k)
      /\ heap (fst (run E files)) = []
      /\ fs (fst (run E files)) = files_after_download E files).
  { intros k Hk. unfold files_after_download, downloads in *.
    destruct (run E files) as [st r] eqn:H. cbn [fst snd].
    unfold_notebook H. reduce_notebook H.
    destruct (files !! "HIGGS.h5") as [f|] eqn:Hex;
      [|destruct (shell E wget_cmd files) as [status files'] eqn:Hshell; cbn [snd] in Hfile];
      (destruct Hk as [[-> HX]|(-> & [X HX] & HY)]);
      repeat step_quiet Hff H; injection H as <- <-; cbn [fs heap]; auto. }
  split; [|split].
  - intros HX. apply (Hcases "features"). auto.
  - intros HX HY. apply (Hcases "targets"). auto.
  - intros [HX|HY].
    + apply (Hcases "features"). auto.
    + destruct (datasets !! "features") as [X|] eqn:HX.
      * apply (Hcases "targets"). right. eauto.
      * apply (Hcases "features"). auto.
Qed.

(** A dataset file with targets only. *)
Lemma missing_dataset_raises_KeyError_witness :
  snd (run Sample.quiet Edge.no_features) = Raise (KeyError "features").
Proof.
  refine (proj1 (missing_dataset_raises_KeyError Sample.quiet Edge.no_features
           (<["targets" := Sample.labels]> ∅) quiet_fault_free _) _).
  - vm_compute. reflexivity.
  - rewrite lookup_insert_ne by done. apply lookup_empty.
Defined.

(** X2.  When no call fails and there is no dataset file even after the
    download step, opening it (with the default mode of h5py 2) creates an
    empty HDF5 file, reading the features from it raises [KeyError], and no
    model has been constructed. *)
Theorem missing_file_is_created_empty E files :
  fault_free E ->
  files_after_download E files !! "HIGGS.h5" = None ->
  snd (run E files) = Raise (KeyError "features")
  /\ heap (fst (run E files)) = []
  /\ fs (fst (run E files)) = <["HIGGS.h5" := HDF5 ∅]> (files_after_download E files).
Proof.
  intros Hff Hfile. unfold files_after_download, downloads in *.
  destruct (run E files) as [st r] eqn:H. cbn [fst snd].
  unfold_notebook H. reduce_notebook H.
  destruct (files !! "HIGGS.h5") as [f|] eqn:Hex;
    [congruence|destruct (shell E wget_cmd files) as [status files'] eqn:Hshell;
                cbn [snd] in Hfile].
  repeat step_quiet Hff H. injection H as <- <-. cbn [fs heap]. auto.
Qed.

(** No file and no network. *)
Lemma missing_file_is_created_empty_witness :
  snd (run Sample.offline ∅) = Raise (KeyError "features").
Proof.
  refine (proj1 (missing_file_is_created_empty Sample.offline ∅ _ _)).
  - intros t. reflexivity.
  - vm_compute. reflexivity.
Defined.

(** X3.  When no call fails and the file named "HIGGS.h5" is not an HDF5
    file, opening it raises [IOError]: nothing is read from it, no model is
    constructed and no file is changed. *)
Theorem not_hdf5_raises_IOError E files :
  fault_free E ->
  (exists c, files_after_download E files !! "HIGGS.h5" = Some (Other c))
  \/ (exists o, files_after_download E files !! "HIGGS.h5" = Some (Pickle o)) ->
  (exists msg, snd (run E files) = Raise (IOError msg))
  /\ heap (fst (run E files)) = []
  /\ fs (fst (run E files)) = files_after_download E files
  /\ count is_load (trace (fst (run E files))) = 0.
Proof.
  intros Hff Hfile. unfold files_after_download, downloads in *.
  destruct (run E files) as [st r] eqn:H. cbn [fst snd].
  unfold_notebook H. reduce_notebook H.
  destruct (files !! "HIGGS.h5") as [f|] eqn:Hex;
    [|destruct (shell E wget_cmd files) as [status files'] eqn:Hshell; cbn [snd] in Hfile];
    destruct Hfile as [[c Hfile]|[o Hfile]];
    repeat step_quiet Hff H; injection H as <- <-; cbn [fs heap trace]; eauto.
Qed.

(** An error page saved under the name of the dataset. *)
Lemma not_hdf5_raises_IOError_witness :
  exists msg, snd (run Sample.quiet Edge.not_hdf5) = Raise (IOError msg).
Proof.
  refine (proj1 (not_hdf5_raises_IOError Sample.quiet Edge.not_hdf5 quiet_fault_free _)).
  left. eexists. vm_compute. reflexivity.
Defined.

(** X4.  When no call fails and the features are a one-dimensional array,
    [inputs.shape[1]] raises [IndexError] in cell 4, after [Sequential()]
    has made the shallow model and before any layer is added to it; no file
    is changed. *)
Theorem flat_features_raise_IndexError E files datasets v :
  fault_free E ->
  files_after_download E files !! "HIGGS.h5" = Some (HDF5 datasets) ->
  datasets !! "features" = Some (Arr1 v) ->
  is_Some (datasets !! "targets") ->
  (exists msg, snd (run E files) = Raise (IndexError msg))
  /\ heap (fst (run E files)) = [Keras.empty]
  /\ fs (fst (run E files)) = files_after_download E files.
Proof.
  intros Hff Hfile HX [Y HY]. unfold files_after_download, downloads in *.
  destruct (run E files) as [st r] eqn:H. cbn [fst snd].
  unfold_notebook H. reduce_notebook H.
  destruct (files !! "HIGGS.h5") as [f|] eqn:Hex;
    [|destruct (shell E wget_cmd files) as [status files'] eqn:Hshell; cbn [snd] in Hfile];
    repeat step_quiet Hff H; injection H as <- <-; cbn [fs heap trace]; eauto.
Qed.

(** The label vector stored as features. *)
Lemma flat_features_raise_IndexError_witness :
  exists msg, snd (run Sample.quiet Edge.flat_features) = Raise (IndexError msg).
Proof.
  refine (proj1 (flat_features_raise_IndexError Sample.quiet Edge.flat_features
           (<["features" := Sample.labels]> (<["targets" := Sample.labels]> ∅))
           (map (fun i => INR (i mod 2)) (seq 0 20)) quiet_fault_free _ _ _)).
  - vm_compute. reflexivity.
  - apply lookup_insert_eq.
  - rewrite lookup_insert_ne, lookup_insert_eq by done. eauto.
Defined.

(** X5.  When no call fails and features and targets have different
    numbers of samples, [train_test_split] raises [ValueError]; both models
    are built and compiled by then, none is trained, and no file is
    changed. *)
Theorem mismatched_lengths_raise_ValueError E files datasets d rows Y :
  fault_free E ->
  files_after_download E files !! "HIGGS.h5" = Some (HDF5 datasets) ->
  datasets !! "features" = Some (Arr2 d rows) ->
  datasets !! "targets" = Some Y ->
  length rows <> shape0 Y ->
  (exists msg, snd (run E files) = Raise (ValueError msg))
  /\ heap (fst (run E files)) =
       [compiled_model (shallow_layers d); compiled_model (deep_layers d)]
  /\ fs (fst (run E files)) = files_after_download E files
  /\ last (trace (fst (run E files))) = Some sklearn_train_test_split.
Proof.
  intros Hff Hfile HX HY Hn.
  assert (Hsp : exists msg,
             ModelSelection.train_test_split (permutation E) (Arr2 d rows) Y
             = Raise (ValueError msg)).
  { unfold ModelSelection.train_test_split. cbn [shape0].
    rewrite (proj2 (Nat.eqb_neq _ _) Hn). eauto. }
  destruct Hsp as [msg Hsp].
  unfold files_after_download, downloads in *.
  destruct (run E files) as [st r] eqn:H. cbn [fst snd].
  unfold_notebook H. reduce_notebook H.
  destruct (files !! "HIGGS.h5") as [f|] eqn:Hex;
    [|destruct (shell E wget_cmd files) as [status files'] eqn:Hshell; cbn [snd] in Hfile];
    repeat step_quiet Hff H; injection H as <- <-; cbn [fs heap trace]; eauto.
Qed.

(** Twenty feature rows and nineteen targets. *)
Lemma mismatched_lengths_raise_ValueError_witness :
  exists msg, snd (run Sample.quiet Edge.mismatched) = Raise (ValueError msg).
Proof.
  refine (proj1 (mismatched_lengths_raise_ValueError Sample.quiet Edge.mismatched
           (<["features" := Sample.features]> (<["targets" := Edge.short_labels]> ∅))
           2 (map (fun i => [INR i; INR (i * i)]) (seq 0 20)) Edge.short_labels
           quiet_fault_free _ _ _ _)).
  - vm_compute. reflexivity.
  - apply lookup_insert_eq.
  - rewrite lookup_insert_ne, lookup_insert_eq by done. reflexivity.
  - cbn. lia.
Defined.

(** X6.  When no call fails and the dataset has fewer than ten samples,
    the training subset is empty and the run raises [ValueError]; both
    models are built and compiled, none is trained, and no file is written,
    the pickle included. *)
Theorem too_few_samples_raise_ValueError E files datasets d rows Y :
  fault_free E -> shuffles (permutation E) ->
  files_after_download E files !! "HIGGS.h5" = Some (HDF5 datasets) ->
  datasets !! "features" = Some (Arr2 d rows) ->
  datasets !! "targets" = Some Y ->
  length rows = shape0 Y ->
  length rows < 10 ->
  (exists msg, snd (run E files) = Raise (ValueError msg))
  /\ heap (fst (run E files)) =
       [compiled_model (shallow_layers d); compiled_model (deep_layers d)]
  /\ fs (fst (run E files)) = files_after_download E files.
Proof.
  intros Hff Hperm Hfile HX HY Hn Hfew.
  destruct (split_spec (permutation E) (Arr2 d rows) Y Hperm Hn)
    as (sp & Hsp & X1 & _).
  cbn [shape0] in X1.
  destruct (safe_indexing_ok _ _ _ X1) as (_ & L1 & D1).
  rewrite (ind_train_length _ Hperm), n_train_formula in L1.
  rewrite Nat.div_small in L1 by exact Hfew.
  destruct (ModelSelection.X_train sp) as [v|d' [|r rows']] eqn:Hxtr;
    cbn [shape0 shape1 length] in L1, D1; try discriminate.
  assert (Hfit : exists msg,
             StandardScaler.fit StandardScaler.new (ModelSelection.X_train sp)
             = Raise (ValueError msg)) by (rewrite Hxtr; cbn; eauto).
  destruct Hfit as [msg Hfit].
  unfold files_after_download, downloads in *.
  destruct (run E files) as [st r] eqn:H. cbn [fst snd].
  unfold_notebook H. reduce_notebook H.
  destruct (files !! "HIGGS.h5") as [f|] eqn:Hex;
    [|destruct (shell E wget_cmd files) as [status files'] eqn:Hshell; cbn [snd] in Hfile];
    repeat step_quiet Hff H; injection H as <- <-; cbn [fs heap trace]; eauto.
Qed.

(** Five samples. *)
Lemma too_few_samples_raise_ValueError_witness :
  exists msg, snd (run Sample.quiet Edge.few) = Raise (ValueError msg).
Proof.
  refine (proj1 (too_few_samples_raise_ValueError Sample.quiet Edge.few
           (<["features" := Arr2 1 (map (fun i => [INR i]) (seq 0 5))]>
              (<["targets" := Arr1 (map (fun i => INR (i mod 2)) (seq 0 5))]> ∅))
           1 (map (fun i => [INR i]) (seq 0 5))
           (Arr1 (map (fun i => INR (i mod 2)) (seq 0 5)))
           quiet_fault_free quiet_shuffles _ _ _ _ _)).
  - vm_compute. reflexivity.
  - apply lookup_insert_eq.
  - rewrite lookup_insert_ne, lookup_insert_eq by done. reflexivity.
  - reflexivity.
  - cbn. lia.
Defined.

(** * What a run leaves behind *)

Ltac decide_premise Hp := vm_compute in Hp; try discriminate Hp.

Ltac lookup_inserts :=
  repeat first [ rewrite lookup_insert_eq | rewrite lookup_insert_ne by done ].

Ltac build_stage :=
  split;
  [ unfold files_after_download, downloads; rewrite_dataset_lookup;
    try match goal with Hs : shell _ _ _ = _ |- _ => rewrite Hs; cbn [snd] end;
    do 3 eexists; repeat split; eassumption
  | eassumption ].

(** What a run, complete or not, has left on disk by the time it stops. *)
Lemma run_progress E files st r :
  run E files = (st, r) ->
  (downloads files = false ->
     (forall p, p <> "HIGGS_preprocessing.pickle" -> p <> "HIGGS_shallow.h5" ->
                p <> "HIGGS_deep.h5" -> fs st !! p = files !! p)
     /\ (existsb is_open (trace st) = false ->
         fs st !! "HIGGS_preprocessing.pickle" = files !! "HIGGS_preprocessing.pickle")
     /\ (existsb (is_save_of 0) (trace st) = false ->
         fs st !! "HIGGS_shallow.h5" = files !! "HIGGS_shallow.h5")
     /\ (existsb (is_save_of 1) (trace st) = false ->
         fs st !! "HIGGS_deep.h5" = files !! "HIGGS_deep.h5"))
  /\ (existsb is_transform (trace st) = true ->
      exists sp sc,
        fitted_stage E files sp sc
        /\ fs st !! "HIGGS_preprocessing.pickle" = Some (Pickle sc))
  /\ (existsb (is_fit_of 1) (trace st) = true ->
      exists sp sc x d,
        fitted_stage E files sp sc
        /\ StandardScaler.transform sc (ModelSelection.X_train sp) = Ok x
        /\ fs st !! "HIGGS_shallow.h5" =
           Some (KerasH5 (trained (shallow_layers d) x (ModelSelection.y_train sp)))).
Proof.
  intros H. unfold_notebook H. reduce_notebook H.
  repeat step H.
  all: injection H as <- <-.
  all: cbn [fs heap trace].
  all: repeat match goal with Hf : fault _ _ = _ |- _ => clear Hf end.
  all: split; [|split].
  all: try (intros Hp; decide_premise Hp; fail).
  all: try (intros Hd; unfold downloads in Hd;
            repeat match goal with
                   | Heq : ?m !! "HIGGS.h5" = _ |- _ => rewrite Heq in Hd
                   end;
            cbv iota in Hd;
            first
              [ discriminate Hd
              | split; [|split; [|split]];
                [ intros p H1 H2 H3; repeat (rewrite lookup_insert_ne by done); reflexivity
                | intros Hp; decide_premise Hp;
                  repeat (rewrite lookup_insert_ne by done); reflexivity .. ] ]).
  all: try (intros _; do 2 eexists; split; [build_stage | lookup_inserts; reflexivity]).
  all: try (intros _; do 4 eexists; split;
            [build_stage | split; [eassumption | lookup_inserts; reflexivity]]).
Qed.

(** X7.  In every run that has reached the training cell, complete or not,
    the pickle file holds the scaler fitted on the training inputs: a
    failure during training does not lose it. *)
Theorem scaler_pickled_before_training E files st r :
  run E files = (st, r) ->
  existsb is_transform (trace st) = true ->
  exists sp sc,
    fitted_stage E files sp sc
    /\ fs st !! "HIGGS_preprocessing.pickle" = Some (Pickle sc).
Proof. intros H. apply (run_progress E files st r H). Qed.

(** The run in which training the deep model fails. *)
Lemma scaler_pickled_before_training_witness :
  exists sc, fs (fst (run Sample.failing Sample.present)) !! "HIGGS_preprocessing.pickle"
             = Some (Pickle sc).
Proof.
  destruct (run Sample.failing Sample.present) as [st r] eqn:H.
  destruct (scaler_pickled_before_training Sample.failing Sample.present st r H)
    as (sp & sc & _ & Hp).
  - change st with (fst (st, r)). rewrite <- H. vm_compute. reflexivity.
  - exists sc. exact Hp.
Defined.

(** X8.  In every run that has started to train the deep model, the
    shallow model is saved with its completed training, whether or not the
    training of the deep model succeeds. *)
Theorem shallow_saved_before_deep_training E files st r :
  run E files = (st, r) ->
  existsb (is_fit_of 1) (trace st) = true ->
  exists sp sc x d,
    fitted_stage E files sp sc
    /\ StandardScaler.transform sc (ModelSelection.X_train sp) = Ok x
    /\ fs st !! "HIGGS_shallow.h5" =
       Some (KerasH5 (trained (shallow_layers d) x (ModelSelection.y_train sp))).
Proof. intros H. apply (run_progress E files st r H). Qed.

(** The run in which training the deep model fails. *)
Lemma shallow_saved_before_deep_training_witness :
  is_Some (fs (fst (run Sample.failing Sample.present)) !! "HIGGS_shallow.h5").
Proof.
  destruct (run Sample.failing Sample.present) as [st r] eqn:H.
  destruct (shallow_saved_before_deep_training Sample.failing Sample.present st r H)
    as (sp & sc & x & d & _ & _ & Hs).
  - change st with (fst (st, r)). rewrite <- H. vm_compute. reflexivity.
  - cbn [fst]. rewrite Hs. eauto.
Defined.

(** X10.  With the dataset present, a run, complete or not, changes no
    file but the three artifacts, and each of those only once the call that
    writes it has been made. *)
Theorem other_files_untouched E files st r f :
  files !! "HIGGS.h5" = Some f ->
  run E files = (st, r) ->
  (forall p, p <> "HIGGS_preprocessing.pickle" -> p <> "HIGGS_shallow.h5" ->
             p <> "HIGGS_deep.h5" -> fs st !! p = files !! p)
  /\ (existsb is_open (trace st) = false ->
      fs st !! "HIGGS_preprocessing.pickle" = files !! "HIGGS_preprocessing.pickle")
  /\ (existsb (is_save_of 0) (trace st) = false ->
      fs st !! "HIGGS_shallow.h5" = files !! "HIGGS_shallow.h5")
  /\ (existsb (is_save_of 1) (trace st) = false ->
      fs st !! "HIGGS_deep.h5" = files !! "HIGGS_deep.h5").
Proof.
  intros Hf H. apply (run_progress E files st r H).
  unfold downloads. rewrite Hf. reflexivity.
Qed.

(** The notes of the user survive a failing run, and the deep model file is
    not created. *)
Lemma other_files_untouched_witness :
  fs (fst (run Sample.failing Edge.used)) !! "notes.txt" = Some (Other "keep")
  /\ fs (fst (run Sample.failing Edge.used)) !! "HIGGS_deep.h5" = None.
Proof.
  destruct (run Sample.failing Edge.used) as [st r] eqn:H.
  destruct (other_files_untouched Sample.failing Edge.used st r Sample.dataset)
    as (Hother & _ & _ & Hdeep).
  - vm_compute. reflexivity.
  - exact H.
  - cbn [fst]. split.
    + rewrite Hother by done. vm_compute. reflexivity.
    + rewrite Hdeep.
      * vm_compute. reflexivity.
      * change st with (fst (st, r)). rewrite <- H. vm_compute. reflexivity.
Defined.

(** * Repeated runs *)

(** X11.  A second complete run, started on the files a first complete run
    left, downloads nothing, loads the same dataset, draws the same split
    (the generator is seeded) and fits and pickles the same scaler.  The
    dataset file is still the one the first run left. *)
Theorem rerun_reproduces_split_and_scaler E E' files st g st' g' :
  permutation E' = permutation E ->
  run E files = (st, Ok g) ->
  run E' (fs st) = (st', Ok g') ->
  count is_download (trace st') = 0
  /\ inputs g' = inputs g /\ targets g' = targets g
  /\ inputs_train g' = inputs_train g /\ inputs_test g' = inputs_test g
  /\ targets_train g' = targets_train g /\ targets_test g' = targets_test g
  /\ preprocessing_input g' = preprocessing_input g
  /\ fs st' !! "HIGGS_preprocessing.pickle" = fs st !! "HIGGS_preprocessing.pickle"
  /\ fs st' !! "HIGGS.h5" = fs st !! "HIGGS.h5".
Proof.
  intros HE H H'.
  destruct (run_completed _ _ _ _ H) as (d & x & C).
  destruct (run_completed _ _ _ _ H') as (d' & x' & C').
  destruct (c_file _ _ _ _ _ _ C) as (ds & F & HX & HY).
  assert (Hkept : fs st !! "HIGGS.h5" = Some (HDF5 ds)).
  { rewrite (c_fs _ _ _ _ _ _ C). by rewrite !lookup_insert_ne by done. }
  assert (Hsame : files_after_download E' (fs st) = fs st).
  { unfold files_after_download, downloads. by rewrite Hkept. }
  destruct (c_file _ _ _ _ _ _ C') as (ds' & F' & HX' & HY').
  rewrite Hsame, Hkept in F'. injection F' as <-.
  assert (HXe : inputs g' = inputs g) by congruence.
  assert (HYe : targets g' = targets g) by congruence.
  pose proof (c_split _ _ _ _ _ _ C) as S.
  pose proof (c_split _ _ _ _ _ _ C') as S'.
  rewrite HE, HXe, HYe, S in S'. injection S' as T1 T2 T3 T4.
  pose proof (c_scaler _ _ _ _ _ _ C) as P.
  pose proof (c_scaler _ _ _ _ _ _ C') as P'.
  rewrite <- T1 in P'.
  assert (HP : preprocessing_input g' = preprocessing_input g) by congruence.
  destruct (run_without_download _ _ _ _ _ Hkept H') as (Hc & _ & Hk).
  split; [exact Hc|].
  do 2 (split; [assumption|]).
  do 4 (split; [by symmetry|]).
  split; [exact HP|]. split; [|congruence].
  rewrite (c_fs _ _ _ _ _ _ C'), (c_fs _ _ _ _ _ _ C), HP.
  lookup_inserts. reflexivity.
Qed.

(** Running twice, the first time with a download. *)
Lemma rerun_reproduces_split_and_scaler_witness :
  count is_download (trace (fst (run Sample.quiet (fs (fst (run Sample.quiet ∅)))))) = 0
  /\ fs (fst (run Sample.quiet (fs (fst (run Sample.quiet ∅))))) !! "HIGGS_preprocessing.pickle"
     = fs (fst (run Sample.quiet ∅)) !! "HIGGS_preprocessing.pickle".
Proof.
  destruct (run Sample.quiet ∅) as [st r] eqn:H.
  assert (Hr : is_ok r = true).
  { change r with (snd (st, r)). rewrite <- H. vm_compute. reflexivity. }
  destruct r as [g|]; [|discriminate]. cbn [fst].
  destruct (run Sample.quiet (fs st)) as [st' r'] eqn:H'.
  assert (Hr' : is_ok r' = true).
  { change r' with (snd (st', r')). rewrite <- H'.
    change st with (fst (st, Ok (A:=globals) g)). rewrite <- H. vm_compute. reflexivity. }
  destruct r' as [g'|]; [|discriminate]. cbn [fst].
  destruct (rerun_reproduces_split_and_scaler Sample.quiet Sample.quiet ∅ st g st' g'
              eq_refl H H') as (Hc & _ & _ & _ & _ & _ & _ & _ & Hp & _).
  split; assumption.
Defined.

(** * The status of the download *)

Lemma bind_congr {A B} (m1 m2 : M A) (f1 f2 : A -> M B) (s : state) :
  m1 s = m2 s -> (forall a s', f1 a s' = f2 a s') -> bind m1 f1 s = bind m2 f2 s.
Proof.
  intros Hm Hf. unfold bind. rewrite Hm.
  destruct (m2 s) as [s' [a|e]]; [apply Hf | reflexivity].
Qed.

Lemma cell2_ignores_status k E s : cell2 (with_status k E) s = cell2 E s.
Proof.
  destruct E as [perm sh fl], s as [files hp tr].
  unfold cell2, path_exists, subprocess_call_shell.
  lazy [bind lib get_fs put_fs ret fault with_status shell trace fs heap negb snd].
  destruct (fl (tr ++ [os_path_exists "HIGGS.h5"])%list); [reflexivity|].
  destruct (files !! "HIGGS.h5"); [reflexivity|].
  destruct (fl _); [reflexivity|].
  destruct (sh wget_cmd files) as [status files']. reflexivity.
Qed.

(** X13.  The exit status of the download command is ignored: changing the
    status the shell returns changes nothing in the run. *)
Theorem download_status_ignored k E files :
  run (with_status k E) files = run E files.
Proof.
  unfold run, notebook.
  apply bind_congr; [reflexivity|]. intros _ s1.
  apply bind_congr; [apply cell2_ignores_status|]. intros _ s2.
  reflexivity.
Qed.

(** * Sizes *)

(** X14.  With [test_size=0.90] a complete run trains on a tenth of the
    samples, rounded down, and holds out the rest; of the training samples
    Keras trains on three quarters, rounded down, and validates on the
    others. *)
Theorem subset_sizes E files st g :
  shuffles (permutation E) ->
  run E files = (st, Ok g) ->
  let n := shape0 (inputs g) in
  shape0 (inputs_train g) = n / 10
  /\ shape0 (targets_train g) = n / 10
  /\ shape0 (inputs_test g) = n - n / 10
  /\ shape0 (targets_test g) = n - n / 10
  /\ exists x,
       StandardScaler.transform (preprocessing_input g) (inputs_train g) = Ok x
       /\ shape0 x = n / 10
       /\ Keras.split_at (shape0 x) 0.25 = 3 * (n / 10) / 4.
Proof.
  intros Hperm H n. destruct (run_completed _ _ _ _ H) as (d & x & C).
  destruct (split_inv _ _ _ _ (c_split _ _ _ _ _ _ C)) as (Hn & X1 & X2 & Y1 & Y2).
  cbn [ModelSelection.X_train ModelSelection.X_test
       ModelSelection.y_train ModelSelection.y_test] in X1, X2, Y1, Y2.
  fold n in X1, X2, Y1, Y2.
  destruct (safe_indexing_ok _ _ _ X1) as (_ & L1 & _).
  destruct (safe_indexing_ok _ _ _ X2) as (_ & L2 & _).
  destruct (safe_indexing_ok _ _ _ Y1) as (_ & L3 & _).
  destruct (safe_indexing_ok _ _ _ Y2) as (_ & L4 & _).
  rewrite (ind_train_length _ Hperm), n_train_formula in L1, L3.
  rewrite (ind_test_length _ Hperm) in L2, L4.
  assert (Ht : ModelSelection.n_test n = n - n / 10).
  { pose proof (n_train_formula n) as Hf. unfold ModelSelection.n_train in Hf.
    pose proof (n_test_le n). lia. }
  rewrite Ht in L2, L4.
  repeat (split; [assumption|]).
  exists x. split; [exact (c_transform _ _ _ _ _ _ C)|].
  destruct (c_checked _ _ _ _ _ _ C) as (rows' & -> & Hlen).
  cbn [shape0]. rewrite Hlen, L3. split; [reflexivity|]. apply split_at_quarter.
Qed.

(** Twenty samples: two for training, eighteen held out. *)
Lemma subset_sizes_witness :
  exists st g, run Sample.quiet Sample.present = (st, Ok g)
               /\ shape0 (inputs_train g) = 2 /\ shape0 (inputs_test g) = 18.
Proof.
  destruct quiet_present_completes as (st & g & H & X & _).
  destruct (subset_sizes Sample.quiet Sample.present st g quiet_shuffles H)
    as (Htr & _ & Hte & _).
  rewrite X in Htr, Hte. exists st, g. auto.
Defined.

(** X15.  For [d] feature columns the shallow model has [1000 d + 2001]
    parameters and the deep model [300 d + 361801], the totals that
    [model.summary()] prints (30,001 and 370,201 for the 28 features of the
    recorded run). *)
Theorem parameter_counts E files st g :
  run E files = (st, Ok g) ->
  exists d shallow deep,
    shape1 (inputs g) = Ok d
    /\ heap st = [shallow; deep]
    /\ Keras.total_params d (Keras.layers shallow) = (1000 * Z.of_nat d + 2001)%Z
    /\ Keras.total_params d (Keras.layers deep) = (300 * Z.of_nat d + 361801)%Z.
Proof.
  intros H. destruct (run_completed _ _ _ _ H) as (d & x & C).
  exists d. do 2 eexists. split; [exact (c_shape _ _ _ _ _ _ C)|].
  split; [exact (c_heap _ _ _ _ _ _ C)|].
  unfold Keras.total_params, trained, shallow_layers, deep_layers, Dense.
  cbn [Keras.layers Keras.summary_rows Keras.units map snd fold_right].
  split; lia.
Qed.

(** The counts for the two features of the sample dataset. *)
Lemma parameter_counts_witness :
  exists st g shallow deep,
    run Sample.quiet Sample.present = (st, Ok g)
    /\ heap st = [shallow; deep]
    /\ Keras.total_params 2 (Keras.layers shallow) = 4001%Z
    /\ Keras.total_params 2 (Keras.layers deep) = 362401%Z.
Proof.
  destruct quiet_present_completes as (st & g & H & X & _).
  destruct (parameter_counts Sample.quiet Sample.present st g H)
    as (d & shallow & deep & Hd & Hh & Hs & Hp).
  rewrite X in Hd. injection Hd as <-.
  exists st, g, shallow, deep. auto.
Defined.

(** * Use after set-up *)

Lemma preceded_b_sound p q t :
  preceded_b p q false t = true -> preceded p q t.
Proof.
  assert (G : forall seen, preceded_b p q seen t = true ->
            forall j b, t !! j = Some b -> q b = true ->
              seen = true \/ exists i a, i < j /\ t !! i = Some a /\ p a = true).
  { induction t as [|c t IH]; intros seen Hb j b Hj Hq; [discriminate|].
    cbn [preceded_b] in Hb. apply andb_true_iff in Hb as [Hc Ht].
    destruct j as [|j]; cbn in Hj.
    - injection Hj as ->. rewrite Hq in Hc. left. exact Hc.
    - destruct (IH _ Ht j b Hj Hq) as [Hs|(i & a & Hi & Ha & Hp)].
      + apply orb_true_iff in Hs as [Hs|Hs]; [left; exact Hs|].
        right. exists 0, c. split; [lia|]. split; [reflexivity | exact Hs].
      + right. exists (S i), a. split; [lia|]. split; assumption. }
  intros Hb j b Hj Hq. destruct (G false Hb j b Hj Hq) as [Hs|Hs]; [discriminate|exact Hs].
Qed.

Lemma preceded_prefix p q (t t' : list call) :
  t `prefix_of` t' -> preceded p q t' -> preceded p q t.
Proof.
  intros [k ->] H j b Hj Hq.
  destruct (H j b) as (i & a & Hi & Ha & Hp); [|exact Hq|].
  - rewrite lookup_app_l; [exact Hj|]. eapply lookup_lt_Some; exact Hj.
  - exists i, a. split; [exact Hi|]. split; [|exact Hp].
    rewrite lookup_app_l in Ha; [exact Ha|].
    apply lookup_lt_Some in Hj. lia.
Qed.


